(** * amv server: session tokens, vehicle lists and records

    A shallow embedding of [server/main.go].  The process-wide [storage]
    variable becomes a value of type [MemoryStorage] that every handler
    receives and returns; the [http.ResponseWriter] a handler writes to
    becomes the [Response] it returns; every reading of the clock
    ([time.Now()]) becomes an explicit argument of the handler that reads it,
    a point in time being an integer count of nanoseconds.
    The embedded [sync.Mutex] only serialises handlers: one handler runs from
    its [Lock] to its [Unlock] on the storage it is given, which is what a
    function from storage to storage expresses. *)

From Stdlib Require Import Ascii.
From stdpp Require Import gmap strings list fin_maps pretty.

Local Open Scope Z_scope.

(** ** Data model (main.go, lines 23-49) *)

(** [VehicleList] of the source. *)
Record VehicleList := mkVehicleList {
  list_ID : Z;
  DisplayName : string;
  Name : string;
  Color : string;
  Order : Z;
  Status : Z
}.

(** [Record] of the source ([Record] is a keyword here). *)
Record VRecord := mkRecord {
  ID : Z;
  Plate : string;
  VehicleType : string
}.

(** The anonymous struct stored under each token; [Expiry] is a point in
    time, counted in nanoseconds like [UnixNano]. *)
Record TokenData := mkTokenData {
  Expiry : Z;
  token_ID : Z
}.

(** [MemoryStorage]: the three maps of the source. A slice of records is
    the sequence of its elements: every slice the handlers store is the
    result of an [append] on the entry it replaces, so no two entries share
    a backing array and none is observed through a second slice header.
    What the sequence does not show, whether an empty slice is nil, is
    kept by [SliceStorage] below. *)
Record MemoryStorage := mkStorage {
  Lists : gmap Z VehicleList;
  Records : gmap Z (list VRecord);
  Tokens : gmap string TokenData
}.

(** The storage [main] builds: three empty maps. *)
Definition initial_storage : MemoryStorage :=
  {| Lists := ∅; Records := ∅; Tokens := ∅ |}.

(** ** Requests and responses *)

(** A value kept in a [context.Context]: the dynamic type matters, since
    [contextID] asserts [int64]. *)
Inductive any :=
  | AnyInt64 (z : Z)
  | AnyString (s : string).

(** A context is the chain of [WithValue] links, innermost first. *)
Definition Context := list (string * any).

Definition Background : Context := [].

Definition WithValue (ctx : Context) (key : string) (v : any) : Context :=
  (key, v) :: ctx.

Fixpoint Value (ctx : Context) (key : string) : option any :=
  match ctx with
  | [] => None
  | (k, v) :: parent => if decide (k = key) then Some v else Value parent key
  end.

(** What the handlers read of an [http.Request]. [Query] and [Cookies] are in
    the order in which they appear in the URL and in the Cookie header. *)
Record Request := mkRequest {
  Method : string;
  Query : list (string * string);
  Cookies : list (string * string);
  Header : gmap string string;
  Body : string;
  Ctx : Context
}.

(** [url.Values.Get]: the first value of the key, the empty string when the
    key is absent. *)
Fixpoint Query_Get (q : list (string * string)) (key : string) : string :=
  match q with
  | [] => ""
  | (k, v) :: q' => if decide (k = key) then v else Query_Get q' key
  end.

(** [Request.Cookie]: the first cookie of that name, [None] for
    [ErrNoCookie]. *)
Fixpoint Cookie (cs : list (string * string)) (name : string) : option string :=
  match cs with
  | [] => None
  | (n, v) :: cs' => if decide (n = name) then Some v else Cookie cs' name
  end.

(** The cookie [http.SetCookie] adds to the response. *)
Record SetCookie := mkSetCookie {
  cookie_Name : string;
  cookie_Value : string;
  cookie_Expires : Z
}.

(** What a handler hands to the response: nothing, a plain text (the
    message of [http.Error]), or the value it gives to the JSON encoder. *)
Inductive body :=
  | NoBody
  | Text (msg : string)
  | LoginJSON (redirectUrl : string) (isAuthorized : bool)
  | ListsJSON (entries : list VehicleList) (offset limit totalCount : Z)
  | RecordsJSON (entries : list VRecord).

Record Response := mkResponse {
  StatusCode : Z;
  SetCookies : list SetCookie;
  RespBody : body
}.

(** The names the source takes from package [net/http]. *)
Module http.

Definition MethodGet : string := "GET".
Definition MethodPost : string := "POST".
Definition MethodDelete : string := "DELETE".

Definition StatusOK : Z := 200.
Definition StatusCreated : Z := 201.
Definition StatusBadRequest : Z := 400.
Definition StatusUnauthorized : Z := 401.
Definition StatusNotFound : Z := 404.
Definition StatusMethodNotAllowed : Z := 405.

(** [http.Error(w, msg, code)]: the status and the message as text. *)
Definition Error (msg : string) (code : Z) : Response :=
  {| StatusCode := code; SetCookies := []; RespBody := Text msg |}.

End http.

(** [w.WriteHeader(code)] and nothing written after it. *)
Definition WriteHeader (code : Z) : Response :=
  {| StatusCode := code; SetCookies := []; RespBody := NoBody |}.

(** [json.NewEncoder(w).Encode(v)] as the first write: status 200. *)
Definition Encode (v : body) : Response :=
  {| StatusCode := http.StatusOK; SetCookies := []; RespBody := v |}.

(** An [http.Handler]: it serves a request on the storage and leaves the
    storage it returns. *)
Definition Handler := MemoryStorage → Request → MemoryStorage * Response.

(** ** Package [strconv] *)

Module strconv.

Definition digit_of (c : ascii) : option Z :=
  let n := Z.of_N (N_of_ascii c) in
  if decide (48 ≤ n ≤ 57) then Some (n - 48) else None.

Fixpoint parse_digits (s : string) (acc : Z) : option Z :=
  match s with
  | EmptyString => Some acc
  | String c s' =>
      match digit_of c with
      | Some d => parse_digits s' (10 * acc + d)
      | None => None
      end
  end.

(** [strconv.ParseInt(s, 10, 64)]: an optional sign and one or more decimal
    digits, within the range of [int64]. [None] stands for a non-nil [err]
    (syntax or range). *)
Definition ParseInt (s : string) : option Z :=
  match s with
  | EmptyString => None
  | String c rest =>
      let '(neg, digits) :=
        if decide (c = "+"%char) then (false, rest)
        else if decide (c = "-"%char) then (true, rest)
        else (false, s) in
      match digits with
      | EmptyString => None
      | _ =>
          match parse_digits digits 0 with
          | None => None
          | Some un =>
              if neg
              then (if decide (un ≤ 2 ^ 63) then Some (- un) else None)
              else (if decide (un < 2 ^ 63) then Some un else None)
          end
      end
  end.

(** [strconv.FormatInt(i, 10)]: the decimal numeral, with a minus sign
    below zero. *)
Definition FormatInt (i : Z) : string := pretty i.

End strconv.

(** ** Context helpers (main.go, lines 273-282) *)

Definition contextWithID (ctx : Context) (id : Z) : Context :=
  WithValue ctx "id" (AnyInt64 id).

Definition contextID (ctx : Context) : Z :=
  match Value ctx "id" with
  | Some (AnyInt64 id) => id
  | _ => 0
  end.

(** ** Record handlers *)

(** [handleGetRecord] (main.go, lines 205-221). *)
Definition handleGetRecord : Handler := λ storage r,
  let id := contextID (Ctx r) in
  match Records storage !! id with
  | None => (storage, http.Error "List not found" http.StatusNotFound)
  | Some records => (storage, Encode (RecordsJSON records))
  end.

(** [storage.Records[id] = records]: only the [Records] map changes. *)
Definition set_Records (storage : MemoryStorage) (id : Z)
    (records : list VRecord) : MemoryStorage :=
  {| Lists := Lists storage;
     Records := <[id := records]> (Records storage);
     Tokens := Tokens storage |}.

(** [storage.Tokens[token] = data]: only the [Tokens] map changes. *)
Definition set_Tokens (storage : MemoryStorage) (token : string)
    (data : TokenData) : MemoryStorage :=
  {| Lists := Lists storage;
     Records := Records storage;
     Tokens := <[token := data]> (Tokens storage) |}.

(** [r.WithContext(ctx)]. *)
Definition WithContext (r : Request) (ctx : Context) : Request :=
  {| Method := Method r; Query := Query r; Cookies := Cookies r;
     Header := Header r; Body := Body r; Ctx := ctx |}.

(** [r.Header.Set(key, value)]; header names are taken up to the
    canonical spelling that [Set] and [Get] both apply. *)
Definition Header_Set (r : Request) (key value : string) : Request :=
  {| Method := Method r; Query := Query r; Cookies := Cookies r;
     Header := <[key := value]> (Header r); Body := Body r; Ctx := Ctx r |}.

(** The loop of [handleDeleteRecord] (main.go, lines 259-266): the index of
    the first record whose [ID] is [recordID], [None] when the loop runs to
    its end. [i] is the index of the head of [records]. *)
Fixpoint range_find (recordID : Z) (records : list VRecord) (i : nat)
    : option nat :=
  match records with
  | [] => None
  | rec :: rest =>
      if decide (ID rec = recordID) then Some i
      else range_find recordID rest (S i)
  end.

(** [handleDeleteRecord] (main.go, lines 238-269). The slice expressions
    [records[:i]] and [records[i+1:]] are [take i] and [drop (S i)], and
    [append(a, b...)] yields the elements of [a] followed by those of [b]. *)
Definition handleDeleteRecord : Handler := λ storage r,
  let id := contextID (Ctx r) in
  let recordIDStr := Query_Get (Query r) "recordId" in
  if decide (recordIDStr = "") then
    (storage, http.Error "Missing recordId parameter" http.StatusBadRequest)
  else
    match strconv.ParseInt recordIDStr with
    | None =>
        (storage, http.Error "Invalid recordId parameter" http.StatusBadRequest)
    | Some recordID =>
        match Records storage !! id with
        | None => (storage, http.Error "List not found" http.StatusNotFound)
        | Some records =>
            match range_find recordID records 0 with
            | Some i =>
                (set_Records storage id (take i records ++ drop (S i) records),
                 WriteHeader http.StatusOK)
            | None =>
                (storage, http.Error "Record not found" http.StatusNotFound)
            end
        end
    end.

(** [generateToken] (main.go, lines 306-308); [now] is the clock it reads,
    and [%d] prints a decimal numeral, with a minus sign below zero. *)
Definition generateToken (id : Z) (now : Z) : string :=
  pretty id +:+ "-" +:+ pretty now.

(** [vehicleListsHandler] (main.go, lines 150-171). [range] is the order in
    which the [for ... range storage.Lists] loop meets the entries of the
    map; the language leaves that order open, so it is an argument. *)
Definition vehicleListsHandler (range : list (Z * VehicleList)) : Handler :=
  λ storage r,
  if decide (Method r = http.MethodGet) then
    let offset := 0 in
    let count := 20 in
    let lists := foldl (λ lists kv, lists ++ [kv.2]) [] range in
    (storage,
     Encode (ListsJSON lists offset count (Z.of_nat (length lists))))
  else
    (storage, http.Error "Method not allowed" http.StatusMethodNotAllowed).

(** [recordMiddleware] (main.go, lines 186-203). *)
Definition recordMiddleware (next : Handler) : Handler := λ storage r,
  let idStr := Query_Get (Query r) "id" in
  if decide (idStr = "") then
    (storage, http.Error "Missing id parameter" http.StatusBadRequest)
  else
    match strconv.ParseInt idStr with
    | None =>
        (storage, http.Error "Invalid id parameter" http.StatusBadRequest)
    | Some id => next storage (WithContext r (contextWithID (Ctx r) id))
    end.

(** [tokenMiddleware] (main.go, lines 284-304). [now] is the clock read by
    [time.Now()] in the test of line 296; [After] is strictly later. *)
Definition tokenMiddleware (now : Z) (next : Handler) : Handler :=
  λ storage r,
  match Cookie (Cookies r) "s" with
  | None => (storage, http.Error "Unauthorized" http.StatusUnauthorized)
  | Some cookie =>
      match Tokens storage !! cookie with
      | None => (storage, http.Error "Unauthorized" http.StatusUnauthorized)
      | Some data =>
          if decide (Expiry data < now) then
            (storage, http.Error "Unauthorized" http.StatusUnauthorized)
          else
            next storage
              (Header_Set r "User-ID" (strconv.FormatInt (token_ID data)))
      end
  end.

Section Server.

(** The token lifetime [tokenExpiry] that [main] configures, in
    nanoseconds, and the two uses of [json.NewDecoder(r.Body).Decode]:
    [None] stands for a non-nil [err]. *)
Variable tokenExpiry : Z.
Variable decodeRecord : string → option VRecord.
Variable decodeCreds : string → option (string * string * bool).

(** [loginHandler] (main.go, lines 107-148). The three arguments are the
    clock as read at lines 123, 307 (inside [generateToken]) and 125. *)
Definition loginHandler (now_id now_token now_expiry : Z) : Handler :=
  λ storage r,
  if decide (Method r ≠ http.MethodPost) then
    (storage, http.Error "Method not allowed" http.StatusMethodNotAllowed)
  else
    match decodeCreds (Body r) with
    | None => (storage, http.Error "Bad request" http.StatusBadRequest)
    | Some creds =>
        let id := now_id in
        let token := generateToken id now_token in
        let expiry := now_expiry + tokenExpiry in
        (set_Tokens storage token {| Expiry := expiry; token_ID := id |},
         {| StatusCode := http.StatusOK;
            SetCookies := [ {| cookie_Name := "s"; cookie_Value := token;
                               cookie_Expires := expiry |} ];
            RespBody := LoginJSON "/" true |})
    end.

(** [handlePostRecord] (main.go, lines 223-236). Indexing the map at an
    absent key gives the empty slice. *)
Definition handlePostRecord : Handler := λ storage r,
  let id := contextID (Ctx r) in
  match decodeRecord (Body r) with
  | None => (storage, http.Error "Bad request" http.StatusBadRequest)
  | Some record =>
      (set_Records storage id (default [] (Records storage !! id) ++ [record]),
       WriteHeader http.StatusCreated)
  end.

(** [recordHandler] (main.go, lines 173-184). *)
Definition recordHandler : Handler := λ storage r,
  if decide (Method r = http.MethodGet) then handleGetRecord storage r
  else if decide (Method r = http.MethodPost) then handlePostRecord storage r
  else if decide (Method r = http.MethodDelete) then
    handleDeleteRecord storage r
  else
    (storage, http.Error "Method not allowed" http.StatusMethodNotAllowed).

(** The two protected routes that [main] registers (lines 85-86). *)
Definition route_vehiclelists (now : Z) (range : list (Z * VehicleList))
    : Handler :=
  tokenMiddleware now (vehicleListsHandler range).

Definition route_record (now : Z) : Handler :=
  tokenMiddleware now (recordMiddleware recordHandler).

End Server.

(** ** Observers used in the statements *)

(** A terminal handler that answers with the [User-ID] header it was given,
    as a test would register behind [tokenMiddleware] to see which owner the
    session resolved to. *)
Definition echoUserID : Handler := λ storage r,
  (storage,
   {| StatusCode := http.StatusOK; SetCookies := [];
      RespBody := Text (default "" (Header r !! "User-ID")) |}).

(** A request that carries nothing but the session cookie [s=token]. *)
Definition request_with_session (token : string) : Request :=
  {| Method := http.MethodGet; Query := []; Cookies := [("s", token)];
     Header := ∅; Body := ""; Ctx := Background |}.

(** The owner a session token resolves to at time [now]: what a handler
    behind [tokenMiddleware] reads in [User-ID], [None] when the middleware
    answers by itself. *)
Definition resolved_owner (now : Z) (storage : MemoryStorage) (token : string)
    : option string :=
  let resp := (tokenMiddleware now echoUserID storage
                 (request_with_session token)).2 in
  if decide (StatusCode resp = http.StatusOK) then
    match RespBody resp with
    | Text owner => Some owner
    | _ => None
    end
  else None.

(** The characters of [s] up to its first minus sign. *)
Fixpoint until_dash (s : string) : string :=
  match s with
  | EmptyString => EmptyString
  | String c s' =>
      if decide (c = "-"%char) then EmptyString else String c (until_dash s')
  end.

(** The first numeral of a token: its first character (a digit or the sign)
    and what follows up to the separating minus sign. *)
Definition token_head (s : string) : string :=
  match s with
  | EmptyString => EmptyString
  | String c s' => String c (until_dash s')
  end.

(** No minus sign occurs in [s]. *)
Fixpoint dash_free (s : string) : Prop :=
  match s with
  | EmptyString => True
  | String c s' => c ≠ "-"%char ∧ dash_free s'
  end.

(** ** Configuration and start-up (main.go, lines 17-21 and 57-105) *)

(** [Config] of the source; [TokenExpiry] is a [time.Duration], a count of
    nanoseconds. *)
Record Config := mkConfig {
  BaseURL : string;
  TokenExpiry : Z
}.

(** [time.Minute]. *)
Definition Minute : Z := 60 * 1000000000.

(** [readConfig] (main.go, lines 92-105). [ReadFile] is [ioutil.ReadFile]
    and [Unmarshal] is [yaml.Unmarshal] into a zero [Config]; [None] stands
    for a non-nil [err] in both and in the result. *)
Definition readConfig (ReadFile : string → option string)
    (Unmarshal : string → option Config) (path : string) : option Config :=
  match ReadFile path with
  | None => None
  | Some file =>
      match Unmarshal file with
      | None => None
      | Some config =>
          if decide (TokenExpiry config = 0) then
            Some {| BaseURL := BaseURL config; TokenExpiry := 5 * Minute |}
          else Some config
      end
  end.

(** The settings [main] computes (main.go, lines 59-72): the package
    variables [baseURL] and [tokenExpiry] once the [if] has run. Both start
    at their zero values, and the first branch assigns [baseURL] only.
    [envURL] is [os.Getenv("KPAM_URL")], [configFile] the value of the
    [-config] flag. *)
Definition main_settings (envURL : string)
    (ReadFile : string → option string) (Unmarshal : string → option Config)
    (configFile : string) : string * Z :=
  let defaultURL := "http://localhost:1608" in
  let defaultExpiry := 5 * Minute in
  if decide (envURL ≠ "") then (envURL, 0)
  else
    match readConfig ReadFile Unmarshal configFile with
    | Some config => (BaseURL config, TokenExpiry config)
    | None => (defaultURL, defaultExpiry)
    end.

(** The slice expression [s[n:]] on a string; the caller checks the bound. *)
Fixpoint string_drop (n : nat) (s : string) : string :=
  match n, s with
  | O, _ => s
  | S n', String _ s' => string_drop n' s'
  | S _, EmptyString => EmptyString
  end.

(** The address [main] listens on (main.go, line 89):
    [baseURL[len("http://"):]]. [None] is the run-time panic of a slice
    bound past the end of the string. *)
Definition listen_addr (baseURL : string) : option string :=
  let n := String.length "http://" in
  if decide (n ≤ String.length baseURL)%nat then Some (string_drop n baseURL)
  else None.

(** ** The routes of the server (main.go, lines 84-86) *)

(** One request served by the process: the route it is sent to, the clock
    readings its handler takes and, for the list route, the order in which
    the loop meets the map. *)
Inductive call :=
  | CallLogin (now_id now_token now_expiry : Z) (r : Request)
  | CallVehicleLists (now : Z) (range : list (Z * VehicleList)) (r : Request)
  | CallRecord (now : Z) (r : Request).

Section Mux.

Variable tokenExpiry : Z.
Variable decodeRecord : string → option VRecord.
Variable decodeCreds : string → option (string * string * bool).

(** The handler registered for the route of the call. *)
Definition serve (c : call) (storage : MemoryStorage)
    : MemoryStorage * Response :=
  match c with
  | CallLogin now_id now_token now_expiry r =>
      loginHandler tokenExpiry decodeCreds now_id now_token now_expiry
        storage r
  | CallVehicleLists now range r =>
      route_vehiclelists now range storage r
  | CallRecord now r => route_record decodeRecord now storage r
  end.

(** The storage after a sequence of requests, served one after the other. *)
Fixpoint run (calls : list call) (storage : MemoryStorage) : MemoryStorage :=
  match calls with
  | [] => storage
  | c :: calls' => run calls' (serve c storage).1
  end.

End Mux.

(** The range of [int64]. *)
Definition int64_range (z : Z) : Prop := - 2 ^ 63 ≤ z < 2 ^ 63.

(** A request whose first cookie [s] is [token]. *)
Definition has_session (r : Request) (token : string) : Prop :=
  Cookie (Cookies r) "s" = Some token.

(** ** Slices as values: nil and empty *)

(** A value of type [[]Record]: the nil slice, or a non-nil slice with its
    elements. Both have length 0 when they hold nothing; [encoding/json]
    tells them apart, writing [null] for the first and [[]] for the
    second. *)
Inductive slice :=
  | NilSlice
  | Slice (elements : list VRecord).

Definition elems (s : slice) : list VRecord :=
  match s with
  | NilSlice => []
  | Slice elements => elements
  end.

(** [append(s, xs...)]: [s] itself when there is nothing to add, a non-nil
    slice otherwise. *)
Definition slice_append (s : slice) (xs : list VRecord) : slice :=
  match xs with
  | [] => s
  | _ :: _ => Slice (elems s ++ xs)
  end.

(** [s[:i]] and [s[i:]], for [i] within the length of [s]: slicing the nil
    slice (at 0, the only index it has) gives nil. *)
Definition slice_upto (s : slice) (i : nat) : slice :=
  match s with
  | NilSlice => NilSlice
  | Slice elements => Slice (take i elements)
  end.

Definition slice_from (s : slice) (i : nat) : slice :=
  match s with
  | NilSlice => NilSlice
  | Slice elements => Slice (drop i elements)
  end.

(** [MemoryStorage] with the values of [Records] as slices. *)
Record SliceStorage := mkSliceStorage {
  sLists : gmap Z VehicleList;
  sRecords : gmap Z slice;
  sTokens : gmap string TokenData
}.

(** The storage as the rest of this file sees it: each slice as the
    sequence of its elements. *)
Definition forget (storage : SliceStorage) : MemoryStorage :=
  {| Lists := sLists storage;
     Records := elems <$> sRecords storage;
     Tokens := sTokens storage |}.

(** [storage.Records[id] = records]. *)
Definition set_sRecords (storage : SliceStorage) (id : Z) (records : slice)
    : SliceStorage :=
  {| sLists := sLists storage;
     sRecords := <[id := records]> (sRecords storage);
     sTokens := sTokens storage |}.

(** What [json.Encode] writes for a [[]Record]. *)
Inductive json_entries :=
  | JSONNull
  | JSONArray (entries : list VRecord).

Definition Marshal (records : slice) : json_entries :=
  match records with
  | NilSlice => JSONNull
  | Slice elements => JSONArray elements
  end.

(** The response as written: the status, and nothing, a plain text, or the
    object [{"entries": ...}]. *)
Inductive wire_body :=
  | WireNoBody
  | WireText (msg : string)
  | WireEntries (entries : json_entries).

Record WireResponse := mkWireResponse {
  wire_StatusCode : Z;
  wire_Body : wire_body
}.

(** The response with [entries] read as a sequence again. *)
Definition read_response (resp : WireResponse) : Response :=
  {| StatusCode := wire_StatusCode resp;
     SetCookies := [];
     RespBody :=
       match wire_Body resp with
       | WireNoBody => NoBody
       | WireText msg => Text msg
       | WireEntries JSONNull => RecordsJSON []
       | WireEntries (JSONArray entries) => RecordsJSON entries
       end |}.

(** [handleGetRecord] (main.go, lines 205-221) on slices. *)
Definition handleGetRecord_slice (storage : SliceStorage) (r : Request)
    : SliceStorage * WireResponse :=
  let id := contextID (Ctx r) in
  match sRecords storage !! id with
  | None =>
      (storage,
       {| wire_StatusCode := http.StatusNotFound;
          wire_Body := WireText "List not found" |})
  | Some records =>
      (storage,
       {| wire_StatusCode := http.StatusOK;
          wire_Body := WireEntries (Marshal records) |})
  end.

(** [handlePostRecord] (main.go, lines 223-236) on slices; indexing the
    map at an absent key gives the nil slice. *)
Definition handlePostRecord_slice (decodeRecord : string → option VRecord)
    (storage : SliceStorage) (r : Request) : SliceStorage * WireResponse :=
  let id := contextID (Ctx r) in
  match decodeRecord (Body r) with
  | None =>
      (storage,
       {| wire_StatusCode := http.StatusBadRequest;
          wire_Body := WireText "Bad request" |})
  | Some record =>
      (set_sRecords storage id
         (slice_append (default NilSlice (sRecords storage !! id)) [record]),
       {| wire_StatusCode := http.StatusCreated; wire_Body := WireNoBody |})
  end.

(** [handleDeleteRecord] (main.go, lines 238-269) on slices. *)
Definition handleDeleteRecord_slice (storage : SliceStorage) (r : Request)
    : SliceStorage * WireResponse :=
  let id := contextID (Ctx r) in
  let recordIDStr := Query_Get (Query r) "recordId" in
  if decide (recordIDStr = "") then
    (storage,
     {| wire_StatusCode := http.StatusBadRequest;
        wire_Body := WireText "Missing recordId parameter" |})
  else
    match strconv.ParseInt recordIDStr with
    | None =>
        (storage,
         {| wire_StatusCode := http.StatusBadRequest;
            wire_Body := WireText "Invalid recordId parameter" |})
    | Some recordID =>
        match sRecords storage !! id with
        | None =>
            (storage,
             {| wire_StatusCode := http.StatusNotFound;
                wire_Body := WireText "List not found" |})
        | Some records =>
            match range_find recordID (elems records) 0 with
            | Some i =>
                (set_sRecords storage id
                   (slice_append (slice_upto records i)
                      (elems (slice_from records (S i)))),
                 {| wire_StatusCode := http.StatusOK;
                    wire_Body := WireNoBody |})
            | None =>
                (storage,
                 {| wire_StatusCode := http.StatusNotFound;
                    wire_Body := WireText "Record not found" |})
            end
        end
    end.

(** No list id is bound to the nil slice. *)
Definition nil_free (storage : SliceStorage) : Prop :=
  ∀ id, sRecords storage !! id ≠ Some NilSlice.

(** * Properties *)

(** ** Sanity checks of the embedding on the inputs of the repository's tests *)

Example ParseInt_examples :
  strconv.ParseInt "1" = Some 1 ∧ strconv.ParseInt "-42" = Some (-42)
  ∧ strconv.ParseInt "+7" = Some 7 ∧ strconv.ParseInt "" = None
  ∧ strconv.ParseInt "-" = None ∧ strconv.ParseInt "1x" = None
  ∧ strconv.ParseInt "9223372036854775807" = Some 9223372036854775807
  ∧ strconv.ParseInt "9223372036854775808" = None
  ∧ strconv.ParseInt "-9223372036854775808" = Some (-9223372036854775808).
Proof. vm_compute. repeat split. Qed.

Example generateToken_example :
  generateToken 17 (-5) = "17--5".
Proof. vm_compute. reflexivity. Qed.

(** [TestRecordMiddleware]: the id of the query reaches the handler. *)
Example recordMiddleware_passes_id :
  recordMiddleware (λ st q, (st, Encode (RecordsJSON
      [mkRecord (contextID (Ctx q)) "" ""])))
    initial_storage
    {| Method := http.MethodGet; Query := [("id", "1")]; Cookies := [];
       Header := ∅; Body := ""; Ctx := Background |}
  = (initial_storage, Encode (RecordsJSON [mkRecord 1 "" ""])).
Proof. vm_compute. reflexivity. Qed.

(** [TestHandleDeleteRecord]. *)
Example handleDeleteRecord_test :
  let st := set_Records initial_storage 1 [mkRecord 100 "ABC123" "Car"] in
  let r := {| Method := http.MethodDelete;
              Query := [("id", "1"); ("recordId", "100")]; Cookies := [];
              Header := ∅; Body := "";
              Ctx := contextWithID Background 1 |} in
  (handleDeleteRecord st r).2 = WriteHeader http.StatusOK
  ∧ Records (handleDeleteRecord st r).1 !! 1 = Some [].
Proof. vm_compute. split; reflexivity. Qed.

(** A session from end to end: after a login the list route answers 401
    without the cookie and 200 with it. *)
Example login_then_vehiclelists :
  let decode := λ _ : string, Some ("test"%string, "password"%string, false) in
  let post := {| Method := http.MethodPost; Query := []; Cookies := [];
                 Header := ∅; Body := "{}"; Ctx := Background |} in
  let get cs := {| Method := http.MethodGet; Query := []; Cookies := cs;
                   Header := ∅; Body := ""; Ctx := Background |} in
  let st := (loginHandler 300 decode 10 11 12 initial_storage post).1 in
  StatusCode (route_vehiclelists 20 [] st (get [])).2 = http.StatusUnauthorized
  ∧ StatusCode (route_vehiclelists 20 [] st (get [("s", "10-11")])).2
    = http.StatusOK
  ∧ StatusCode (route_vehiclelists 313 [] st (get [("s", "10-11")])).2
    = http.StatusUnauthorized.
Proof. vm_compute. repeat split. Qed.

(** ** Reading records *)

(** The sequence-level handlers are the slice-level ones with every slice
    read as the sequence of its elements. *)
Lemma handleGetRecord_slice_forget (storage : SliceStorage) (r : Request) :
  handleGetRecord (forget storage) r
  = (forget (handleGetRecord_slice storage r).1,
     read_response (handleGetRecord_slice storage r).2).
Proof.
  unfold handleGetRecord, handleGetRecord_slice. simpl.
  rewrite lookup_fmap.
  destruct (sRecords storage !! contextID (Ctx r)) as [[|elements]|];
    reflexivity.
Qed.

Lemma forget_set_sRecords (storage : SliceStorage) (id : Z) (records : slice) :
  forget (set_sRecords storage id records)
  = set_Records (forget storage) id (elems records).
Proof. unfold forget, set_Records. simpl. rewrite fmap_insert. reflexivity. Qed.

Lemma handlePostRecord_slice_forget (decodeRecord : string → option VRecord)
    (storage : SliceStorage) (r : Request) :
  handlePostRecord decodeRecord (forget storage) r
  = (forget (handlePostRecord_slice decodeRecord storage r).1,
     read_response (handlePostRecord_slice decodeRecord storage r).2).
Proof.
  unfold handlePostRecord, handlePostRecord_slice.
  destruct (decodeRecord (Body r)) as [record|]; [|reflexivity].
  simpl fst. simpl snd. rewrite forget_set_sRecords. simpl.
  rewrite lookup_fmap.
  destruct (sRecords storage !! contextID (Ctx r)) as [[|elements]|];
    reflexivity.
Qed.

Lemma handleDeleteRecord_slice_forget (storage : SliceStorage) (r : Request) :
  handleDeleteRecord (forget storage) r
  = (forget (handleDeleteRecord_slice storage r).1,
     read_response (handleDeleteRecord_slice storage r).2).
Proof.
  unfold handleDeleteRecord, handleDeleteRecord_slice.
  destruct (decide (Query_Get (Query r) "recordId" = "")); [reflexivity|].
  destruct (strconv.ParseInt (Query_Get (Query r) "recordId")) as [recordID|];
    [|reflexivity].
  simpl. rewrite lookup_fmap.
  destruct (sRecords storage !! contextID (Ctx r)) as [records|];
    [|reflexivity].
  destruct records as [|elements]; [reflexivity|]. simpl.
  destruct (range_find recordID elements 0) as [i|]; [|reflexivity].
  simpl fst. simpl snd. rewrite forget_set_sRecords. simpl.
  destruct (drop (S i) elements) as [|x rest]; simpl.
  - rewrite app_nil_r. reflexivity.
  - reflexivity.
Qed.

(** The slices the create and delete handlers store are never nil, so a
    storage that holds no nil slice never comes to hold one. *)
Lemma handlePostRecord_slice_nil_free
    (decodeRecord : string → option VRecord) (storage : SliceStorage)
    (r : Request) :
  nil_free storage →
  nil_free (handlePostRecord_slice decodeRecord storage r).1.
Proof.
  intros Hfree. unfold handlePostRecord_slice.
  destruct (decodeRecord (Body r)) as [record|]; [|exact Hfree].
  intros id. simpl. rewrite lookup_insert.
  destruct (decide (contextID (Ctx r) = id)); [discriminate | apply Hfree].
Qed.

Lemma handleDeleteRecord_slice_nil_free (storage : SliceStorage)
    (r : Request) :
  nil_free storage → nil_free (handleDeleteRecord_slice storage r).1.
Proof.
  intros Hfree. unfold handleDeleteRecord_slice.
  destruct (decide (Query_Get (Query r) "recordId" = "")); [exact Hfree|].
  destruct (strconv.ParseInt (Query_Get (Query r) "recordId")) as [recordID|];
    [|exact Hfree].
  destruct (sRecords storage !! contextID (Ctx r)) as [records|] eqn:Hget;
    [|exact Hfree].
  destruct (range_find recordID (elems records) 0) as [i|]; [|exact Hfree].
  intros id. simpl. rewrite lookup_insert.
  destruct (decide (contextID (Ctx r) = id)) as [_|_]; [|apply Hfree].
  destruct records as [|elements].
  - exfalso. exact (Hfree _ Hget).
  - simpl. destruct (drop (S i) elements); discriminate.
Qed.

(** C3, as the code has it. [handleGetRecord] answers 404 exactly when the
    list id of the request's context has no entry in [Records]. When the
    entry is there and holds an empty slice that is not nil, it answers 200
    with [entries] the empty list; when it holds the nil slice, it answers
    200 with [entries] null. It never changes the storage. *)
Theorem handleGetRecord_slice_not_found_iff (storage : SliceStorage)
    (r : Request) :
  let id := contextID (Ctx r) in
  let resp := (handleGetRecord_slice storage r).2 in
  (wire_StatusCode resp = http.StatusNotFound ↔ sRecords storage !! id = None)
  ∧ (sRecords storage !! id = Some (Slice []) →
       resp = {| wire_StatusCode := http.StatusOK;
                 wire_Body := WireEntries (JSONArray []) |})
  ∧ (sRecords storage !! id = Some NilSlice →
       resp = {| wire_StatusCode := http.StatusOK;
                 wire_Body := WireEntries JSONNull |})
  ∧ (handleGetRecord_slice storage r).1 = storage.
Proof.
  intros id resp. subst id resp. unfold handleGetRecord_slice.
  destruct (sRecords storage !! contextID (Ctx r)) as [records|] eqn:Hget;
    simpl.
  - split; [split; discriminate|].
    split; [intros [= ->]; reflexivity|].
    split; [intros [= ->]; reflexivity | reflexivity].
  - split; [split; reflexivity|].
    split; [discriminate|]. split; [discriminate | reflexivity].
Qed.

Lemma handleGetRecord_slice_not_found_iff_witness :
  let st := {| sLists := ∅; sRecords := {[ 7 := Slice [] ]}; sTokens := ∅ |} in
  let r := {| Method := http.MethodGet; Query := []; Cookies := [];
              Header := ∅; Body := ""; Ctx := contextWithID Background 7 |} in
  (handleGetRecord_slice st r).2
  = {| wire_StatusCode := http.StatusOK;
       wire_Body := WireEntries (JSONArray []) |}.
Proof.
  intros st r.
  apply (proj1 (proj2 (handleGetRecord_slice_not_found_iff st r))).
  vm_compute. reflexivity.
Defined.

(** C3, as the claim has it, fails: a list id bound to the nil slice is
    present in [Records] with an empty sequence, and the answer is 200 with
    [entries] null, not the empty list. *)
Lemma handleGetRecord_slice_nil_entries_null :
  let st := {| sLists := ∅; sRecords := {[ 1 := NilSlice ]}; sTokens := ∅ |} in
  let r := {| Method := http.MethodGet; Query := [("id", "1")];
              Cookies := []; Header := ∅; Body := "";
              Ctx := contextWithID Background 1 |} in
  (∃ records, sRecords st !! contextID (Ctx r) = Some records
              ∧ elems records = [])
  ∧ (handleGetRecord_slice st r).2
    = {| wire_StatusCode := http.StatusOK;
         wire_Body := WireEntries JSONNull |}
  ∧ (handleGetRecord_slice st r).2
    ≠ {| wire_StatusCode := http.StatusOK;
         wire_Body := WireEntries (JSONArray []) |}.
Proof.
  intros st r. split; [|split].
  - exists NilSlice. split; vm_compute; reflexivity.
  - vm_compute. reflexivity.
  - vm_compute. discriminate.
Qed.

(** ** The list id of the context *)

Lemma contextID_contextWithID (ctx : Context) (id : Z) :
  contextID (contextWithID ctx id) = id.
Proof. reflexivity. Qed.

Lemma handleGetRecord_ctx (storage : MemoryStorage) (r r' : Request) :
  contextID (Ctx r) = contextID (Ctx r') →
  handleGetRecord storage r = handleGetRecord storage r'.
Proof. unfold handleGetRecord. intros ->. reflexivity. Qed.

(** C10. A context without a value under ["id"] makes [contextID] return 0,
    and each record handler then does on the request what it does when the
    middleware has put list id 0 in the context: it reads, extends or
    shortens [Records[0]]. *)
Theorem contextID_absent_is_zero
    (decodeRecord : string → option VRecord)
    (storage : MemoryStorage) (r : Request) :
  Value (Ctx r) "id" = None →
  let r0 := WithContext r (contextWithID (Ctx r) 0) in
  contextID (Ctx r) = 0
  ∧ handleGetRecord storage r = handleGetRecord storage r0
  ∧ handlePostRecord decodeRecord storage r
    = handlePostRecord decodeRecord storage r0
  ∧ handleDeleteRecord storage r = handleDeleteRecord storage r0
  ∧ (∀ record, decodeRecord (Body r) = Some record →
       handlePostRecord decodeRecord storage r
       = (set_Records storage 0
            (default [] (Records storage !! 0) ++ [record]),
          WriteHeader http.StatusCreated)).
Proof.
  intros Hval r0.
  assert (Hid : contextID (Ctx r) = 0) by (unfold contextID; rewrite Hval; reflexivity).
  split; [exact Hid|].
  unfold handleGetRecord, handlePostRecord, handleDeleteRecord.
  subst r0. simpl. rewrite contextID_contextWithID, Hid.
  repeat split.
  intros record Hdec. rewrite Hdec. reflexivity.
Qed.

Lemma contextID_absent_is_zero_witness :
  let decode := λ _ : string, Some (mkRecord 5 "XYZ789" "Truck") in
  let st := set_Records initial_storage 0 [mkRecord 4 "ABC123" "Car"] in
  let r := {| Method := http.MethodPost; Query := []; Cookies := []; Header := ∅;
              Body := "{}"; Ctx := Background |} in
  contextID (Ctx r) = 0
  ∧ Records (handlePostRecord decode st r).1 !! 0
    = Some [mkRecord 4 "ABC123" "Car"; mkRecord 5 "XYZ789" "Truck"].
Proof.
  intros decode st r.
  destruct (contextID_absent_is_zero decode st r eq_refl)
    as (Hid & _ & _ & _ & Hpost).
  split; [exact Hid|].
  rewrite (Hpost _ eq_refl). vm_compute. reflexivity.
Defined.

(** ** The session middleware *)

(** C1. [tokenMiddleware] turns a request away with 401, whatever the next
    handler is (so without calling it), when the cookie [s] is missing, or
    its value is no key of [Tokens], or the clock is past the stored expiry;
    in every other case the cookie is a key of [Tokens], the clock is at or
    before the expiry, and the answer is the next handler's. *)
Theorem tokenMiddleware_unauthorized_iff
    (now : Z) (storage : MemoryStorage) (r : Request) :
  let rejected :=
    Cookie (Cookies r) "s" = None
    ∨ (∃ c, Cookie (Cookies r) "s" = Some c ∧ Tokens storage !! c = None)
    ∨ (∃ c d, Cookie (Cookies r) "s" = Some c ∧ Tokens storage !! c = Some d
              ∧ Expiry d < now) in
  (rejected →
     ∀ next, tokenMiddleware now next storage r
             = (storage, http.Error "Unauthorized" http.StatusUnauthorized))
  ∧ (¬ rejected →
     ∃ c d, Cookie (Cookies r) "s" = Some c ∧ Tokens storage !! c = Some d
            ∧ now ≤ Expiry d
            ∧ ∀ next, tokenMiddleware now next storage r
                      = next storage
                          (Header_Set r "User-ID" (strconv.FormatInt (token_ID d)))).
Proof.
  intros rejected. subst rejected. unfold tokenMiddleware. split.
  - intros [Hc | [(c & Hc & Ht) | (c & d & Hc & Ht & Hexp)]] next;
      rewrite Hc; [reflexivity | rewrite Ht; reflexivity | ].
    rewrite Ht. destruct (decide (Expiry d < now)); [reflexivity | lia].
  - intros Hnot.
    destruct (Cookie (Cookies r) "s") as [c|] eqn:Hc.
    2:{ exfalso. apply Hnot. left. reflexivity. }
    destruct (Tokens storage !! c) as [d|] eqn:Ht.
    2:{ exfalso. apply Hnot. right. left. exists c. split; [reflexivity | exact Ht]. }
    destruct (decide (Expiry d < now)) as [Hexp|Hexp].
    { exfalso. apply Hnot. right. right. exists c, d. auto. }
    exists c, d. split; [reflexivity|]. split; [exact Ht|].
    split; [lia|]. intros next. reflexivity.
Qed.

Lemma tokenMiddleware_unauthorized_iff_witness :
  let st := set_Tokens initial_storage "17-18" (mkTokenData 100 17) in
  let r := request_with_session "17-18" in
  (tokenMiddleware 101 echoUserID st r).2 = http.Error "Unauthorized" http.StatusUnauthorized
  ∧ ∃ d, token_ID d = 17
         ∧ tokenMiddleware 100 echoUserID st r
           = echoUserID st (Header_Set r "User-ID" (strconv.FormatInt (token_ID d))).
Proof.
  intros st r. split.
  - rewrite (proj1 (tokenMiddleware_unauthorized_iff 101 st r)); [reflexivity|].
    right. right. exists "17-18"%string, (mkTokenData 100 17).
    vm_compute. repeat split; reflexivity.
  - destruct (proj2 (tokenMiddleware_unauthorized_iff 100 st r))
      as (c & d & Hc & Ht & _ & Hnext).
    + intros [Hc | [(c & Hc & Ht) | (c & d & Hc & Ht & Hexp)]].
      * vm_compute in Hc. discriminate.
      * vm_compute in Hc. injection Hc as <-. vm_compute in Ht. discriminate.
      * vm_compute in Hc. injection Hc as <-. vm_compute in Ht.
        injection Ht as <-. vm_compute in Hexp. discriminate.
    + exists d. split; [|apply Hnext].
      vm_compute in Hc. injection Hc as <-. vm_compute in Ht.
      injection Ht as <-. reflexivity.
Defined.

(** C8. Validation reads [Tokens] and writes nothing: [tokenMiddleware]
    either answers 401 and returns the storage it was given, or hands that
    same storage to the next handler, whichever handler that is; behind a
    handler that writes nothing the storage comes back as it was; and a
    token whose expiry has passed is still a key of [Tokens], with the same
    data, afterwards, [Lists] and [Records] being the same too. *)
Theorem tokenMiddleware_storage_unchanged
    (now : Z) (storage : MemoryStorage) (r : Request) :
  ((∀ next, tokenMiddleware now next storage r
            = (storage, http.Error "Unauthorized" http.StatusUnauthorized))
   ∨ (∃ r', ∀ next, tokenMiddleware now next storage r = next storage r'))
  ∧ (∀ next : Handler,
       (∀ st q, (next st q).1 = st) →
       (tokenMiddleware now next storage r).1 = storage)
  ∧ (∀ c d next,
       Cookie (Cookies r) "s" = Some c → Tokens storage !! c = Some d →
       Expiry d < now →
       let storage' := (tokenMiddleware now next storage r).1 in
       Tokens storage' !! c = Some d
       ∧ Tokens storage' = Tokens storage
       ∧ Lists storage' = Lists storage
       ∧ Records storage' = Records storage).
Proof.
  unfold tokenMiddleware. split; [|split].
  - destruct (Cookie (Cookies r) "s") as [c|]; [|left; reflexivity].
    destruct (Tokens storage !! c) as [d|]; [|left; reflexivity].
    destruct (decide (Expiry d < now)); [left; reflexivity|].
    right. eexists. intros next. reflexivity.
  - intros next Hnext.
    destruct (Cookie (Cookies r) "s") as [c|]; [|reflexivity].
    destruct (Tokens storage !! c) as [d|]; [|reflexivity].
    destruct (decide (Expiry d < now)); [reflexivity | apply Hnext].
  - intros c d next Hc Ht Hexp. rewrite Hc, Ht.
    destruct (decide (Expiry d < now)) as [_|Hn]; [|contradiction].
    simpl. split; [exact Ht|]. split; [reflexivity|]. split; reflexivity.
Qed.

Lemma tokenMiddleware_storage_unchanged_witness :
  let st := set_Tokens initial_storage "17-18" (mkTokenData 100 17) in
  let st' := (tokenMiddleware 101 echoUserID st
                (request_with_session "17-18")).1 in
  Tokens st' !! "17-18" = Some (mkTokenData 100 17)
  ∧ Tokens st' = Tokens st
  ∧ Lists st' = Lists st
  ∧ Records st' = Records st.
Proof.
  intros st.
  apply (proj2 (proj2 (tokenMiddleware_storage_unchanged 101 st
                         (request_with_session "17-18")))
           "17-18"%string (mkTokenData 100 17) echoUserID);
    vm_compute; reflexivity.
Defined.

(** ** Deleting a record *)

Lemma range_find_Some (recordID : Z) (records : list VRecord) (i j : nat) :
  range_find recordID records i = Some j →
  ∃ pre rec post,
    records = pre ++ rec :: post ∧ ID rec = recordID
    ∧ Forall (λ x, ID x ≠ recordID) pre ∧ j = (i + length pre)%nat.
Proof.
  revert i. induction records as [|x rest IH]; intros i; simpl.
  - discriminate.
  - destruct (decide (ID x = recordID)) as [Heq|Hne].
    + intros [= <-]. exists [], x, rest. simpl.
      repeat split; [assumption | constructor | lia].
    + intros Hfind. destruct (IH _ Hfind) as (pre & rec & post & -> & Hid & Hpre & ->).
      exists (x :: pre), rec, post. simpl.
      repeat split; [assumption | constructor; assumption | lia].
Qed.

Lemma range_find_None (recordID : Z) (records : list VRecord) (i : nat) :
  range_find recordID records i = None ↔
  Forall (λ x, ID x ≠ recordID) records.
Proof.
  revert i. induction records as [|x rest IH]; intros i; simpl.
  - split; [constructor | reflexivity].
  - destruct (decide (ID x = recordID)) as [Heq|Hne].
    + split; [discriminate|]. intros Hall. inversion Hall; contradiction.
    + rewrite IH. split.
      * intros Hall. constructor; assumption.
      * intros Hall. inversion Hall; assumption.
Qed.

Lemma take_drop_middle_remove {A} (pre post : list A) (x : A) :
  take (length pre) (pre ++ x :: post)
    ++ drop (S (length pre)) (pre ++ x :: post)
  = pre ++ post.
Proof.
  rewrite take_app_length.
  replace (S (length pre)) with (length (pre ++ [x]))
    by (rewrite length_app; simpl; lia).
  rewrite (cons_middle x pre post), app_assoc, drop_app_length.
  reflexivity.
Qed.

(** What [handleDeleteRecord] does once the parameter has been parsed and
    the list found: shared by the statements below. *)
Lemma handleDeleteRecord_parsed (storage : MemoryStorage) (r : Request)
    (recordID : Z) (records : list VRecord) :
  strconv.ParseInt (Query_Get (Query r) "recordId") = Some recordID →
  Records storage !! contextID (Ctx r) = Some records →
  handleDeleteRecord storage r
  = match range_find recordID records 0 with
    | Some i =>
        (set_Records storage (contextID (Ctx r))
           (take i records ++ drop (S i) records),
         WriteHeader http.StatusOK)
    | None => (storage, http.Error "Record not found" http.StatusNotFound)
    end.
Proof.
  intros Hparse Hlist. unfold handleDeleteRecord.
  destruct (decide (Query_Get (Query r) "recordId" = "")) as [Hempty|_].
  { rewrite Hempty in Hparse. discriminate. }
  rewrite Hparse, Hlist. reflexivity.
Qed.

(** C2. When the list of the request holds a record with the requested id,
    [handleDeleteRecord] stores the sequence without the first such record,
    every other record staying where it was relative to the others, touches
    nothing else of the storage, and answers 200 with no body. *)
Theorem handleDeleteRecord_removes_first (storage : MemoryStorage)
    (r : Request) (recordID : Z) (records : list VRecord) :
  strconv.ParseInt (Query_Get (Query r) "recordId") = Some recordID →
  Records storage !! contextID (Ctx r) = Some records →
  (∃ rec, rec ∈ records ∧ ID rec = recordID) →
  ∃ pre rec post,
    records = pre ++ rec :: post
    ∧ ID rec = recordID
    ∧ (∀ x, x ∈ pre → ID x ≠ recordID)
    ∧ handleDeleteRecord storage r
      = ({| Lists := Lists storage;
            Records := <[contextID (Ctx r) := pre ++ post]> (Records storage);
            Tokens := Tokens storage |},
         {| StatusCode := http.StatusOK; SetCookies := []; RespBody := NoBody |}).
Proof.
  intros Hparse Hlist (rec0 & Hin & Hid0).
  rewrite (handleDeleteRecord_parsed _ _ _ _ Hparse Hlist).
  destruct (range_find recordID records 0) as [i|] eqn:Hfind.
  - destruct (range_find_Some _ _ _ _ Hfind)
      as (pre & rec & post & -> & Hid & Hpre & ->).
    exists pre, rec, post. split; [reflexivity|]. split; [exact Hid|].
    split.
    + intros x Hx. rewrite Forall_forall in Hpre. apply Hpre, Hx.
    + simpl. rewrite take_drop_middle_remove. reflexivity.
  - apply range_find_None in Hfind. rewrite Forall_forall in Hfind.
    exfalso. exact (Hfind rec0 Hin Hid0).
Qed.

Lemma handleDeleteRecord_removes_first_witness :
  let a := mkRecord 1 "A" "Car" in
  let b := mkRecord 2 "B" "Car" in
  let b' := mkRecord 2 "B2" "Truck" in
  let st := set_Records initial_storage 9 [a; b; b'] in
  let r := {| Method := http.MethodDelete; Query := [("recordId", "2")];
              Cookies := []; Header := ∅; Body := "";
              Ctx := contextWithID Background 9 |} in
  ∃ pre rec post,
    [a; b; b'] = pre ++ rec :: post
    ∧ ID rec = 2
    ∧ (∀ x, x ∈ pre → ID x ≠ 2)
    ∧ handleDeleteRecord st r
      = ({| Lists := Lists st;
            Records := <[contextID (Ctx r) := pre ++ post]> (Records st);
            Tokens := Tokens st |},
         {| StatusCode := http.StatusOK; SetCookies := []; RespBody := NoBody |}).
Proof.
  intros a b b' st r.
  apply (handleDeleteRecord_removes_first st r 2 [a; b; b']).
  - vm_compute. reflexivity.
  - vm_compute. reflexivity.
  - exists b. split; [|reflexivity]. apply list_elem_of_In. simpl. auto.
Defined.

(** C6. The failures of [handleDeleteRecord] leave the storage as it was:
    400 when [recordId] is missing or does not parse; and, once it parses,
    404 when the list id has no entry in [Records], and 404 when the list is
    there but none of its records has the requested id. *)
Theorem handleDeleteRecord_failures_keep_storage (storage : MemoryStorage)
    (r : Request) :
  let id := contextID (Ctx r) in
  let recordIDStr := Query_Get (Query r) "recordId" in
  (∀ recordID records,
     strconv.ParseInt recordIDStr = Some recordID →
     Records storage !! id = Some records →
     (∀ rec, rec ∈ records → ID rec ≠ recordID) →
     handleDeleteRecord storage r
     = (storage, http.Error "Record not found" http.StatusNotFound))
  ∧ (recordIDStr = "" ∨ strconv.ParseInt recordIDStr = None →
     (handleDeleteRecord storage r).1 = storage
     ∧ StatusCode (handleDeleteRecord storage r).2 = http.StatusBadRequest)
  ∧ (∀ recordID,
     strconv.ParseInt recordIDStr = Some recordID →
     Records storage !! id = None →
     handleDeleteRecord storage r
     = (storage, http.Error "List not found" http.StatusNotFound)).
Proof.
  intros id recordIDStr. subst id recordIDStr. split; [|split].
  - intros recordID records Hparse Hlist Hnone.
    rewrite (handleDeleteRecord_parsed _ _ _ _ Hparse Hlist).
    assert (Hfind : range_find recordID records 0 = None).
    { apply range_find_None, Forall_forall. exact Hnone. }
    rewrite Hfind. reflexivity.
  - intros Hbad. unfold handleDeleteRecord.
    destruct (decide (Query_Get (Query r) "recordId" = "")) as [Hempty|Hne].
    + split; reflexivity.
    + destruct Hbad as [Hempty|Hparse]; [contradiction|].
      rewrite Hparse. split; reflexivity.
  - intros recordID Hparse Hlist. unfold handleDeleteRecord.
    destruct (decide (Query_Get (Query r) "recordId" = "")) as [Hempty|_].
    { rewrite Hempty in Hparse. discriminate. }
    rewrite Hparse, Hlist. reflexivity.
Qed.

Lemma handleDeleteRecord_failures_keep_storage_witness :
  let st := set_Records initial_storage 9 [mkRecord 1 "A" "Car"] in
  let r := {| Method := http.MethodDelete; Query := [("recordId", "2")];
              Cookies := []; Header := ∅; Body := "";
              Ctx := contextWithID Background 9 |} in
  let r_bad := {| Method := http.MethodDelete; Query := [("recordId", "2a")];
                  Cookies := []; Header := ∅; Body := "";
                  Ctx := contextWithID Background 9 |} in
  let r_other := {| Method := http.MethodDelete; Query := [("recordId", "2")];
                    Cookies := []; Header := ∅; Body := "";
                    Ctx := contextWithID Background 8 |} in
  handleDeleteRecord st r = (st, http.Error "Record not found" http.StatusNotFound)
  ∧ ((handleDeleteRecord st r_bad).1 = st
     ∧ StatusCode (handleDeleteRecord st r_bad).2 = http.StatusBadRequest)
  ∧ handleDeleteRecord st r_other = (st, http.Error "List not found" http.StatusNotFound).
Proof.
  intros st r r_bad r_other. split; [|split].
  - apply (proj1 (handleDeleteRecord_failures_keep_storage st r)
             2 [mkRecord 1 "A" "Car"]).
    + vm_compute. reflexivity.
    + vm_compute. reflexivity.
    + intros rec Hin. apply list_elem_of_In in Hin. simpl in Hin.
      destruct Hin as [<-|[]]. vm_compute. discriminate.
  - apply (proj1 (proj2 (handleDeleteRecord_failures_keep_storage st r_bad))).
    right. vm_compute. reflexivity.
  - apply (proj2 (proj2 (handleDeleteRecord_failures_keep_storage st r_other)) 2).
    + vm_compute. reflexivity.
    + vm_compute. reflexivity.
Defined.

(** C9. Deleting the only record of a list leaves the list id in [Records],
    bound to the empty sequence, so that reading the list next answers 200
    with [entries] empty, not 404. *)
Theorem handleDeleteRecord_last_keeps_list (storage : MemoryStorage)
    (r r' : Request) (rec : VRecord) :
  strconv.ParseInt (Query_Get (Query r) "recordId") = Some (ID rec) →
  Records storage !! contextID (Ctx r) = Some [rec] →
  contextID (Ctx r') = contextID (Ctx r) →
  let storage' := (handleDeleteRecord storage r).1 in
  (handleDeleteRecord storage r).2
  = {| StatusCode := http.StatusOK; SetCookies := []; RespBody := NoBody |}
  ∧ Records storage' !! contextID (Ctx r) = Some []
  ∧ handleGetRecord storage' r'
    = (storage',
       {| StatusCode := http.StatusOK; SetCookies := [];
          RespBody := RecordsJSON [] |}).
Proof.
  intros Hparse Hlist Hctx storage'. subst storage'.
  rewrite (handleDeleteRecord_parsed _ _ _ _ Hparse Hlist). simpl.
  destruct (decide (ID rec = ID rec)) as [_|Hne]; [|contradiction].
  simpl. split; [reflexivity|].
  assert (Hget : <[contextID (Ctx r) := []]> (Records storage)
                   !! contextID (Ctx r) = Some ([] : list VRecord))
    by apply lookup_insert_eq.
  split; [exact Hget|].
  unfold handleGetRecord. rewrite Hctx. simpl. rewrite Hget. reflexivity.
Qed.

Lemma handleDeleteRecord_last_keeps_list_witness :
  let rec := mkRecord 100 "ABC123" "Car" in
  let st := set_Records initial_storage 1 [rec] in
  let r := {| Method := http.MethodDelete;
              Query := [("id", "1"); ("recordId", "100")]; Cookies := [];
              Header := ∅; Body := ""; Ctx := contextWithID Background 1 |} in
  let r' := {| Method := http.MethodGet; Query := [("id", "1")]; Cookies := [];
               Header := ∅; Body := ""; Ctx := contextWithID Background 1 |} in
  let st' := (handleDeleteRecord st r).1 in
  (handleDeleteRecord st r).2
  = {| StatusCode := http.StatusOK; SetCookies := []; RespBody := NoBody |}
  ∧ Records st' !! contextID (Ctx r) = Some []
  ∧ handleGetRecord st' r'
    = (st', {| StatusCode := http.StatusOK; SetCookies := [];
               RespBody := RecordsJSON [] |}).
Proof.
  intros rec st r r'.
  apply (handleDeleteRecord_last_keeps_list st r r' rec);
    vm_compute; reflexivity.
Defined.

(** ** Creating a record *)

(** C5. When the body decodes to a record, [handlePostRecord] answers 201
    and binds the list id of the request to the old sequence (empty when the
    id had no entry) followed by that record; [handleGetRecord] for the same
    list id, run next, answers 200 with that sequence, whose last element is
    the record, equal in [ID], [Plate] and [VehicleType]. *)
Theorem handlePostRecord_then_get
    (decodeRecord : string → option VRecord)
    (storage : MemoryStorage) (r r' : Request) (record : VRecord) :
  decodeRecord (Body r) = Some record →
  contextID (Ctx r') = contextID (Ctx r) →
  let L := contextID (Ctx r) in
  let storage' := (handlePostRecord decodeRecord storage r).1 in
  (handlePostRecord decodeRecord storage r).2
  = {| StatusCode := http.StatusCreated; SetCookies := []; RespBody := NoBody |}
  ∧ Records storage' !! L
    = Some (default [] (Records storage !! L) ++ [record])
  ∧ ∃ entries,
      handleGetRecord storage' r'
      = (storage',
         {| StatusCode := http.StatusOK; SetCookies := [];
            RespBody := RecordsJSON entries |})
      ∧ ∃ created,
          last entries = Some created
          ∧ ID created = ID record
          ∧ Plate created = Plate record
          ∧ VehicleType created = VehicleType record.
Proof.
  intros Hdec Hctx L storage'. subst L storage'.
  unfold handlePostRecord. rewrite Hdec. simpl.
  split; [reflexivity|].
  set (old := default [] (Records storage !! contextID (Ctx r))).
  assert (Hget : <[contextID (Ctx r) := old ++ [record]]> (Records storage)
                   !! contextID (Ctx r) = Some (old ++ [record]))
    by apply lookup_insert_eq.
  split; [exact Hget|].
  exists (old ++ [record]). split.
  - unfold handleGetRecord. rewrite Hctx. simpl. rewrite Hget. reflexivity.
  - exists record. rewrite last_snoc. repeat split.
Qed.

Lemma handlePostRecord_then_get_witness :
  let record := mkRecord 101 "XYZ789" "Truck" in
  let decode := λ _ : string, Some record in
  let st := set_Records initial_storage 1 [mkRecord 100 "ABC123" "Car"] in
  let r := {| Method := http.MethodPost; Query := [("id", "1")]; Cookies := [];
              Header := ∅; Body := "{}"; Ctx := contextWithID Background 1 |} in
  let r' := {| Method := http.MethodGet; Query := [("id", "1")]; Cookies := [];
               Header := ∅; Body := ""; Ctx := contextWithID Background 1 |} in
  ∃ entries,
    handleGetRecord (handlePostRecord decode st r).1 r'
    = ((handlePostRecord decode st r).1,
       {| StatusCode := http.StatusOK; SetCookies := [];
          RespBody := RecordsJSON entries |})
    ∧ ∃ created,
        last entries = Some created
        ∧ ID created = ID record
        ∧ Plate created = Plate record
        ∧ VehicleType created = VehicleType record.
Proof.
  intros record decode st r r'.
  apply (handlePostRecord_then_get decode st r r' record);
    vm_compute; reflexivity.
Defined.

(** ** Listing the vehicle lists *)

Lemma range_append_values (range : list (Z * VehicleList))
    (acc : list VehicleList) :
  foldl (λ lists kv, lists ++ [kv.2]) acc range = acc ++ range.*2.
Proof.
  revert acc. induction range as [|kv range IH]; intros acc; simpl.
  - rewrite app_nil_r. reflexivity.
  - rewrite IH, <- app_assoc. reflexivity.
Qed.

(** C7. On a GET request, whichever order the loop meets the entries of
    [Lists] in, [vehicleListsHandler] answers 200 with one entry for each
    entry of the map and no other (nothing is cut by the offset 0 and limit
    20 it reports), and [totalCount] is the number of entries of the map. *)
Theorem vehicleListsHandler_returns_all (range : list (Z * VehicleList))
    (storage : MemoryStorage) (r : Request) :
  Method r = http.MethodGet →
  range ≡ₚ map_to_list (Lists storage) →
  ∃ entries,
    vehicleListsHandler range storage r
    = (storage,
       {| StatusCode := http.StatusOK; SetCookies := [];
          RespBody := ListsJSON entries 0 20 (Z.of_nat (size (Lists storage))) |})
    ∧ entries ≡ₚ (map_to_list (Lists storage)).*2
    ∧ length entries = size (Lists storage)
    ∧ (∀ k v, Lists storage !! k = Some v → v ∈ entries).
Proof.
  intros Hget Hrange. unfold vehicleListsHandler.
  destruct (decide (Method r = http.MethodGet)) as [_|Hne]; [|contradiction].
  rewrite range_append_values. simpl.
  assert (Hperm : range.*2 ≡ₚ (map_to_list (Lists storage)).*2)
    by (rewrite Hrange; reflexivity).
  assert (Hlen : length range.*2 = size (Lists storage)).
  { rewrite Hperm, length_fmap. apply length_map_to_list. }
  exists range.*2. split; [|split; [|split]].
  - unfold Encode. rewrite Hlen. reflexivity.
  - exact Hperm.
  - exact Hlen.
  - intros k v Hkv. rewrite Hperm. apply list_elem_of_fmap.
    exists (k, v). split; [reflexivity|].
    apply elem_of_map_to_list. exact Hkv.
Qed.

Lemma vehicleListsHandler_returns_all_witness :
  let l1 := mkVehicleList 1 "Test List" "testList" "" 0 0 in
  let l2 := mkVehicleList 2 "Other" "other" "red" 1 0 in
  let st := {| Lists := <[2 := l2]> (<[1 := l1]> ∅); Records := ∅;
               Tokens := ∅ |} in
  let r := {| Method := http.MethodGet; Query := []; Cookies := []; Header := ∅;
              Body := ""; Ctx := Background |} in
  ∃ entries,
    vehicleListsHandler [(1, l1); (2, l2)] st r
    = (st,
       {| StatusCode := http.StatusOK; SetCookies := [];
          RespBody := ListsJSON entries 0 20 (Z.of_nat (size (Lists st))) |})
    ∧ entries ≡ₚ (map_to_list (Lists st)).*2
    ∧ length entries = size (Lists st)
    ∧ (∀ k v, Lists st !! k = Some v → v ∈ entries).
Proof.
  intros l1 l2 st r.
  apply (vehicleListsHandler_returns_all [(1, l1); (2, l2)] st r).
  - reflexivity.
  - vm_compute. apply perm_swap.
Defined.

(** ** Login: tokens and owner ids *)

(** The decimal numerals that [generateToken] joins hold no minus sign past
    their first character, so the owner id can be read back from a token. *)
Lemma pretty_N_char_not_dash (x : N) : pretty_N_char x ≠ "-"%char.
Proof. unfold pretty_N_char. repeat case_match; discriminate. Qed.

Lemma pretty_N_go_dash_free (x : N) (s : string) :
  dash_free s → dash_free (pretty_N_go x s).
Proof.
  revert s. induction (N.lt_wf_0 x) as [x _ IH]; intros s Hs.
  destruct (decide (x = 0)%N) as [->|Hx].
  - rewrite pretty_N_go_0. exact Hs.
  - rewrite pretty_N_go_step by lia. apply IH.
    + apply N.div_lt; lia.
    + simpl. split; [apply pretty_N_char_not_dash | exact Hs].
Qed.

Lemma pretty_N_go_nonempty (x : N) (s : string) :
  s ≠ "" → pretty_N_go x s ≠ "".
Proof.
  revert s. induction (N.lt_wf_0 x) as [x _ IH]; intros s Hs.
  destruct (decide (x = 0)%N) as [->|Hx].
  - rewrite pretty_N_go_0. exact Hs.
  - rewrite pretty_N_go_step by lia. apply IH.
    + apply N.div_lt; lia.
    + discriminate.
Qed.

Lemma pretty_N_shape (x : N) :
  ∃ c rest, pretty x = String c rest ∧ c ≠ "-"%char ∧ dash_free rest.
Proof.
  assert (Hfree : dash_free (pretty x)).
  { unfold pretty, pretty_N. destruct (decide (x = 0)%N).
    - simpl. split; [discriminate | exact I].
    - apply pretty_N_go_dash_free. exact I. }
  assert (Hne : pretty x ≠ "").
  { unfold pretty, pretty_N. destruct (decide (x = 0)%N); [discriminate|].
    rewrite pretty_N_go_step by lia. apply pretty_N_go_nonempty. discriminate. }
  destruct (pretty x) as [|c rest]; [contradiction|].
  exists c, rest. destruct Hfree as [Hc Hrest]. auto.
Qed.

Lemma pretty_Z_shape (z : Z) :
  ∃ c rest, pretty z = String c rest ∧ dash_free rest.
Proof.
  destruct z as [|p|p].
  - exists "0"%char, ""%string. split; [reflexivity | exact I].
  - destruct (pretty_N_shape (N.pos p)) as (c & rest & Heq & _ & Hrest).
    exists c, rest. split; [exact Heq | exact Hrest].
  - destruct (pretty_N_shape (N.pos p)) as (c & rest & Heq & Hc & Hrest).
    exists "-"%char, (String c rest). split.
    + change (pretty (Z.neg p)) with ("-" +:+ pretty (N.pos p)).
      rewrite Heq. reflexivity.
    + simpl. auto.
Qed.

Lemma until_dash_app (rest s : string) :
  dash_free rest → until_dash (rest +:+ "-" +:+ s) = rest.
Proof.
  induction rest as [|c rest IH]; simpl.
  - intros _. reflexivity.
  - intros [Hc Hrest]. destruct (decide (c = "-"%char)); [contradiction|].
    rewrite IH by assumption. reflexivity.
Qed.

Lemma token_head_generateToken (id now : Z) :
  token_head (generateToken id now) = pretty id.
Proof.
  unfold generateToken.
  destruct (pretty_Z_shape id) as (c & rest & -> & Hrest).
  simpl. rewrite until_dash_app by assumption. reflexivity.
Qed.

Lemma generateToken_inj_id (id1 now1 id2 now2 : Z) :
  generateToken id1 now1 = generateToken id2 now2 → id1 = id2.
Proof.
  intros Heq. apply (inj pretty).
  rewrite <- (token_head_generateToken id1 now1),
          <- (token_head_generateToken id2 now2), Heq.
  reflexivity.
Qed.

(** A token that is in [Tokens] and not yet past its expiry resolves to the
    owner id stored with it. *)
Lemma resolved_owner_valid (now : Z) (storage : MemoryStorage)
    (token : string) (d : TokenData) :
  Tokens storage !! token = Some d →
  now ≤ Expiry d →
  resolved_owner now storage token = Some (strconv.FormatInt (token_ID d)).
Proof.
  intros Ht Hnow. unfold resolved_owner, tokenMiddleware, request_with_session.
  simpl. rewrite Ht.
  destruct (decide (Expiry d < now)) as [Hlt|_]; [lia|].
  unfold echoUserID, Header_Set. simpl.
  rewrite lookup_insert_eq. reflexivity.
Qed.

(** C4, as the code has it. Two successful logins, one after the other,
    each set a cookie [s] whose token, while it has not expired, resolves to
    the clock reading its own call took for the owner id (line 123); the two
    owners differ exactly when those two readings differ. *)
Theorem loginHandler_owner_per_clock_reading
    (tokenExpiry : Z) (decodeCreds : string → option (string * string * bool))
    (storage : MemoryStorage) (r1 r2 : Request)
    (id1 tok1 exp1 id2 tok2 exp2 now : Z) :
  Method r1 = http.MethodPost → is_Some (decodeCreds (Body r1)) →
  Method r2 = http.MethodPost → is_Some (decodeCreds (Body r2)) →
  now ≤ exp1 + tokenExpiry → now ≤ exp2 + tokenExpiry →
  let res1 := loginHandler tokenExpiry decodeCreds id1 tok1 exp1 storage r1 in
  let res2 := loginHandler tokenExpiry decodeCreds id2 tok2 exp2 res1.1 r2 in
  ∃ k1 k2,
    StatusCode res1.2 = http.StatusOK ∧ SetCookies res1.2 = [k1]
    ∧ cookie_Name k1 = "s"
    ∧ StatusCode res2.2 = http.StatusOK ∧ SetCookies res2.2 = [k2]
    ∧ cookie_Name k2 = "s"
    ∧ resolved_owner now res2.1 (cookie_Value k1) = Some (strconv.FormatInt id1)
    ∧ resolved_owner now res2.1 (cookie_Value k2) = Some (strconv.FormatInt id2)
    ∧ (strconv.FormatInt id1 ≠ strconv.FormatInt id2 ↔ id1 ≠ id2).
Proof.
  intros Hm1 [creds1 Hd1] Hm2 [creds2 Hd2] Hnow1 Hnow2 res1 res2.
  subst res1 res2. unfold loginHandler.
  destruct (decide (Method r1 ≠ http.MethodPost)) as [Hne|_]; [contradiction|].
  destruct (decide (Method r2 ≠ http.MethodPost)) as [Hne|_]; [contradiction|].
  rewrite Hd1, Hd2.
  pose proof (generateToken_inj_id id1 tok1 id2 tok2) as Hinj.
  set (t1 := generateToken id1 tok1) in *.
  set (t2 := generateToken id2 tok2) in *.
  simpl. eexists _, _.
  split; [reflexivity|]. split; [reflexivity|]. split; [reflexivity|].
  split; [reflexivity|]. split; [reflexivity|]. split; [reflexivity|].
  simpl. split; [|split].
  - destruct (decide (t1 = t2)) as [Heq|Hne].
    + rewrite (Hinj Heq), Heq.
      apply (resolved_owner_valid now _ _
               {| Expiry := exp2 + tokenExpiry; token_ID := id2 |});
        [apply lookup_insert_eq | exact Hnow2].
    + apply (resolved_owner_valid now _ _
               {| Expiry := exp1 + tokenExpiry; token_ID := id1 |});
        [|exact Hnow1].
      simpl. rewrite lookup_insert_ne by congruence. apply lookup_insert_eq.
  - apply (resolved_owner_valid now _ _
             {| Expiry := exp2 + tokenExpiry; token_ID := id2 |});
      [apply lookup_insert_eq | exact Hnow2].
  - split.
    + intros Hne ->. apply Hne. reflexivity.
    + intros Hne Heq. apply Hne. apply (inj pretty). exact Heq.
Qed.

Lemma loginHandler_owner_per_clock_reading_witness :
  let decode := λ _ : string, Some ("test"%string, "password"%string, false) in
  let r := {| Method := http.MethodPost; Query := []; Cookies := []; Header := ∅;
              Body := "{}"; Ctx := Background |} in
  let res1 := loginHandler 300000000000 decode 1000 1001 1002 initial_storage r in
  let res2 := loginHandler 300000000000 decode 2000 2001 2002 res1.1 r in
  ∃ k1 k2,
    StatusCode res1.2 = http.StatusOK ∧ SetCookies res1.2 = [k1]
    ∧ cookie_Name k1 = "s"
    ∧ StatusCode res2.2 = http.StatusOK ∧ SetCookies res2.2 = [k2]
    ∧ cookie_Name k2 = "s"
    ∧ resolved_owner 3000 res2.1 (cookie_Value k1) = Some (strconv.FormatInt 1000)
    ∧ resolved_owner 3000 res2.1 (cookie_Value k2) = Some (strconv.FormatInt 2000)
    ∧ (strconv.FormatInt 1000 ≠ strconv.FormatInt 2000 ↔ 1000 ≠ 2000).
Proof.
  intros decode r.
  apply (loginHandler_owner_per_clock_reading 300000000000 decode
           initial_storage r r 1000 1001 1002 2000 2001 2002 3000).
  - reflexivity.
  - eexists. reflexivity.
  - reflexivity.
  - eexists. reflexivity.
  - vm_compute. discriminate.
  - vm_compute. discriminate.
Defined.

(** C4, as the claim has it, fails: on a clock that ticks every 100 ns, two
    logins inside one tick both succeed and set two different cookies, and
    both cookies resolve to one and the same owner id. *)
Lemma loginHandler_same_tick_same_owner :
  let T := 1700000000000000000 in
  let decode := λ _ : string, Some ("test"%string, "password"%string, false) in
  let r := {| Method := http.MethodPost; Query := []; Cookies := []; Header := ∅;
              Body := "{}"; Ctx := Background |} in
  let res1 := loginHandler 300000000000 decode T T T initial_storage r in
  let res2 := loginHandler 300000000000 decode T (T + 100) (T + 100) res1.1 r in
  StatusCode res1.2 = http.StatusOK ∧ StatusCode res2.2 = http.StatusOK
  ∧ ∃ k1 k2 owner,
      SetCookies res1.2 = [k1] ∧ SetCookies res2.2 = [k2]
      ∧ cookie_Value k1 ≠ cookie_Value k2
      ∧ resolved_owner (T + 200) res2.1 (cookie_Value k1) = Some owner
      ∧ resolved_owner (T + 200) res2.1 (cookie_Value k2) = Some owner.
Proof.
  intros T decode r res1 res2.
  split; [reflexivity|]. split; [reflexivity|].
  exists (mkSetCookie "s" (generateToken T T) (T + 300000000000)),
         (mkSetCookie "s" (generateToken T (T + 100))
            (T + 100 + 300000000000)),
         (pretty T).
  split; [reflexivity|]. split; [reflexivity|].
  split; [vm_compute; discriminate|].
  split; vm_compute; reflexivity.
Qed.

(** * Further properties of the server *)

(** ** Decimal numerals: [FormatInt] and [ParseInt] *)

Lemma digit_of_pretty_N_char (d : N) :
  (d < 10)%N → strconv.digit_of (pretty_N_char d) = Some (Z.of_N d).
Proof.
  intros Hd.
  assert (d = 0 ∨ d = 1 ∨ d = 2 ∨ d = 3 ∨ d = 4 ∨ d = 5 ∨ d = 6 ∨ d = 7
          ∨ d = 8 ∨ d = 9)%N as Hcases by lia.
  repeat (destruct Hcases as [->|Hcases]; [reflexivity|]).
  subst d. reflexivity.
Qed.

Lemma parse_digits_pretty_N_go (x : N) (s : string) :
  strconv.parse_digits (pretty_N_go x s) 0 = strconv.parse_digits s (Z.of_N x).
Proof.
  revert s. induction (N.lt_wf_0 x) as [x _ IH]; intros s.
  destruct (decide (x = 0)%N) as [->|Hx].
  - rewrite pretty_N_go_0. reflexivity.
  - rewrite pretty_N_go_step by lia.
    rewrite IH by (apply N.div_lt; lia).
    simpl. rewrite digit_of_pretty_N_char by (apply N.mod_lt; lia).
    f_equal. rewrite (N.div_mod x 10) at 3 by lia. lia.
Qed.

Lemma parse_digits_pretty_pos (p : positive) :
  ∃ c rest, pretty (N.pos p) = String c rest
            ∧ c ≠ "+"%char ∧ c ≠ "-"%char
            ∧ strconv.parse_digits (String c rest) 0 = Some (Z.pos p).
Proof.
  assert (Hparse : strconv.parse_digits (pretty (N.pos p)) 0 = Some (Z.pos p)).
  { unfold pretty, pretty_N. destruct (decide (N.pos p = 0)%N); [lia|].
    rewrite parse_digits_pretty_N_go. reflexivity. }
  destruct (pretty_N_shape (N.pos p)) as (c & rest & Heq & Hdash & _).
  exists c, rest. rewrite Heq in Hparse.
  split; [exact Heq|]. split; [|split; [exact Hdash | exact Hparse]].
  intros ->. simpl in Hparse. discriminate.
Qed.

Lemma ParseInt_FormatInt (z : Z) :
  int64_range z → strconv.ParseInt (strconv.FormatInt z) = Some z.
Proof.
  unfold int64_range, strconv.FormatInt. intros Hz.
  destruct z as [|p|p].
  - reflexivity.
  - destruct (parse_digits_pretty_pos p) as (c & rest & Heq & Hplus & Hdash & Hparse).
    change (pretty (Z.pos p)) with (pretty (N.pos p)). rewrite Heq.
    unfold strconv.ParseInt.
    destruct (decide (c = "+"%char)) as [|_]; [contradiction|].
    destruct (decide (c = "-"%char)) as [|_]; [contradiction|].
    rewrite Hparse.
    destruct (decide (Z.pos p < 2 ^ 63)); [reflexivity | lia].
  - destruct (parse_digits_pretty_pos p) as (c & rest & Heq & Hplus & Hdash & Hparse).
    change (pretty (Z.neg p)) with ("-" +:+ pretty (N.pos p)). rewrite Heq.
    change ("-" +:+ String c rest) with (String "-"%char (String c rest)).
    unfold strconv.ParseInt.
    destruct (decide ("-"%char = "+"%char)) as [Heq'|_]; [discriminate|].
    destruct (decide ("-"%char = "-"%char)) as [_|Hne]; [|contradiction].
    rewrite Hparse.
    destruct (decide (Z.pos p ≤ 2 ^ 63)); [reflexivity | lia].
Qed.

Lemma parse_digits_nonneg (s : string) (acc z : Z) :
  0 ≤ acc → strconv.parse_digits s acc = Some z → 0 ≤ z.
Proof.
  revert acc. induction s as [|c s IH]; intros acc Hacc; simpl.
  - intros [= <-]. exact Hacc.
  - unfold strconv.digit_of.
    destruct (decide (48 ≤ Z.of_N (N_of_ascii c) ≤ 57)); [|discriminate].
    apply IH. lia.
Qed.

Lemma ParseInt_range (s : string) (z : Z) :
  strconv.ParseInt s = Some z → int64_range z.
Proof.
  unfold strconv.ParseInt, int64_range. destruct s as [|c rest]; [discriminate|].
  destruct (decide (c = "+"%char)) as [_|_];
    [|destruct (decide (c = "-"%char)) as [_|_]].
  - destruct rest as [|c' rest']; [discriminate|].
    destruct (strconv.parse_digits (String c' rest') 0) as [un|] eqn:Hp;
      [|discriminate].
    apply parse_digits_nonneg in Hp; [|lia].
    destruct (decide (un < 2 ^ 63)); [|discriminate]. intros [= <-]. lia.
  - destruct rest as [|c' rest']; [discriminate|].
    destruct (strconv.parse_digits (String c' rest') 0) as [un|] eqn:Hp;
      [|discriminate].
    apply parse_digits_nonneg in Hp; [|lia].
    destruct (decide (un ≤ 2 ^ 63)); [|discriminate]. intros [= <-]. lia.
  - destruct (strconv.parse_digits (String c rest) 0) as [un|] eqn:Hp;
      [|discriminate].
    apply parse_digits_nonneg in Hp; [|lia].
    destruct (decide (un < 2 ^ 63)); [|discriminate]. intros [= <-]. lia.
Qed.

(** ** The record-scope middleware *)

(** X1. [recordMiddleware] answers 400 and leaves the storage alone,
    whatever the next handler is (so without calling it), when the query
    has no [id] or one that [ParseInt] refuses. *)
Theorem recordMiddleware_bad_id (storage : MemoryStorage) (r : Request) :
  Query_Get (Query r) "id" = ""
  ∨ strconv.ParseInt (Query_Get (Query r) "id") = None →
  ∃ msg, ∀ next,
    recordMiddleware next storage r
    = (storage, http.Error msg http.StatusBadRequest).
Proof.
  intros Hbad. unfold recordMiddleware.
  destruct (decide (Query_Get (Query r) "id" = "")) as [Hempty|Hne].
  - exists "Missing id parameter"%string. intros next. reflexivity.
  - destruct Hbad as [Hempty|Hparse]; [contradiction|].
    exists "Invalid id parameter"%string. intros next.
    rewrite Hparse. reflexivity.
Qed.

Lemma recordMiddleware_bad_id_witness :
  ∃ msg, ∀ next,
    recordMiddleware next initial_storage
      {| Method := http.MethodGet; Query := [("id", "12x")]; Cookies := [];
         Header := ∅; Body := ""; Ctx := Background |}
    = (initial_storage, http.Error msg http.StatusBadRequest).
Proof.
  apply recordMiddleware_bad_id. right. vm_compute. reflexivity.
Defined.

(** X2. When the [id] of the query parses, [recordMiddleware] calls the
    next handler on the storage it was given and on a request that differs
    in its context only: [contextID] now returns the parsed id, which is an
    [int64], even if the context carried another id before. *)
Theorem recordMiddleware_passes_parsed_id (storage : MemoryStorage)
    (r : Request) (id : Z) :
  strconv.ParseInt (Query_Get (Query r) "id") = Some id →
  ∃ r',
    (∀ next, recordMiddleware next storage r = next storage r')
    ∧ contextID (Ctx r') = id ∧ int64_range id
    ∧ Method r' = Method r ∧ Query r' = Query r ∧ Cookies r' = Cookies r
    ∧ Header r' = Header r ∧ Body r' = Body r.
Proof.
  intros Hparse. exists (WithContext r (contextWithID (Ctx r) id)).
  split; [|split; [reflexivity|]].
  - intros next. unfold recordMiddleware.
    destruct (decide (Query_Get (Query r) "id" = "")) as [Hempty|_].
    { rewrite Hempty in Hparse. discriminate. }
    rewrite Hparse. reflexivity.
  - split; [exact (ParseInt_range _ _ Hparse)|]. repeat split.
Qed.

Lemma recordMiddleware_passes_parsed_id_witness :
  let r := {| Method := http.MethodGet; Query := [("id", "-3")];
              Cookies := []; Header := ∅; Body := "";
              Ctx := contextWithID Background 8 |} in
  ∃ r',
    (∀ next, recordMiddleware next initial_storage r = next initial_storage r')
    ∧ contextID (Ctx r') = -3 ∧ int64_range (-3)
    ∧ Method r' = Method r ∧ Query r' = Query r ∧ Cookies r' = Cookies r
    ∧ Header r' = Header r ∧ Body r' = Body r.
Proof.
  intros r. apply (recordMiddleware_passes_parsed_id initial_storage r (-3)).
  vm_compute. reflexivity.
Defined.

(** X3. Every [int64] list id written in decimal in the query reaches the
    next handler as that same id. *)
Theorem recordMiddleware_id_roundtrip (storage : MemoryStorage)
    (r : Request) (L : Z) (next : Handler) :
  int64_range L →
  Query_Get (Query r) "id" = strconv.FormatInt L →
  recordMiddleware next storage r
  = next storage (WithContext r (contextWithID (Ctx r) L)).
Proof.
  intros HL Hq. pose proof (ParseInt_FormatInt L HL) as Hparse.
  unfold recordMiddleware. rewrite Hq.
  destruct (decide (strconv.FormatInt L = "")) as [Hempty|_].
  { rewrite Hempty in Hparse. discriminate. }
  rewrite Hparse. reflexivity.
Qed.

Lemma recordMiddleware_id_roundtrip_witness :
  let r := {| Method := http.MethodGet;
              Query := [("id", "-9223372036854775808")];
              Cookies := []; Header := ∅; Body := ""; Ctx := Background |} in
  recordMiddleware handleGetRecord initial_storage r
  = handleGetRecord initial_storage
      (WithContext r (contextWithID (Ctx r) (-9223372036854775808))).
Proof.
  intros r.
  apply (recordMiddleware_id_roundtrip initial_storage r
           (-9223372036854775808) handleGetRecord).
  - unfold int64_range. lia.
  - vm_compute. reflexivity.
Defined.

(** ** Creating and deleting records, one after the other *)

Lemma range_find_first (recordID : Z) (pre post : list VRecord)
    (rec : VRecord) (i : nat) :
  (∀ x, x ∈ pre → ID x ≠ recordID) → ID rec = recordID →
  range_find recordID (pre ++ rec :: post) i = Some (i + length pre)%nat.
Proof.
  revert i. induction pre as [|x pre IH]; intros i Hpre Hid; simpl.
  - destruct (decide (ID rec = recordID)); [f_equal; lia | contradiction].
  - destruct (decide (ID x = recordID)) as [Heq|_].
    + exfalso. apply (Hpre x); [left | exact Heq].
    + rewrite IH; [f_equal; lia | | exact Hid].
      intros y Hy. apply Hpre. right. exact Hy.
Qed.

Lemma set_Records_twice (storage : MemoryStorage) (id : Z)
    (records records' : list VRecord) :
  set_Records (set_Records storage id records) id records'
  = set_Records storage id records'.
Proof. unfold set_Records. simpl. rewrite insert_insert_eq. reflexivity. Qed.


(** What [handleDeleteRecord] does to a list in which the first record of
    the requested id is known. *)
Lemma handleDeleteRecord_first (storage : MemoryStorage) (r : Request)
    (recordID : Z) (pre post : list VRecord) (rec : VRecord) :
  strconv.ParseInt (Query_Get (Query r) "recordId") = Some recordID →
  Records storage !! contextID (Ctx r) = Some (pre ++ rec :: post) →
  (∀ x, x ∈ pre → ID x ≠ recordID) → ID rec = recordID →
  handleDeleteRecord storage r
  = (set_Records storage (contextID (Ctx r)) (pre ++ post),
     WriteHeader http.StatusOK).
Proof.
  intros Hparse Hlist Hpre Hid.
  rewrite (handleDeleteRecord_parsed _ _ _ _ Hparse Hlist).
  rewrite (range_find_first _ _ _ _ _ Hpre Hid). simpl.
  rewrite take_drop_middle_remove. reflexivity.
Qed.

(** X4. [handlePostRecord] writes to one place only: [Lists], [Tokens] and
    the sequences of all other list ids stay as they were, and the records
    the list already held stay in front, in their order. A body that does
    not decode gives 400 and the storage as it was. *)
Theorem handlePostRecord_frame (decodeRecord : string → option VRecord)
    (storage : MemoryStorage) (r : Request) :
  let id := contextID (Ctx r) in
  let storage' := (handlePostRecord decodeRecord storage r).1 in
  Lists storage' = Lists storage
  ∧ Tokens storage' = Tokens storage
  ∧ (∀ L, L ≠ id → Records storage' !! L = Records storage !! L)
  ∧ (∀ records, Records storage !! id = Some records →
       ∃ records', Records storage' !! id = Some records'
                   ∧ records `prefix_of` records')
  ∧ (decodeRecord (Body r) = None →
       handlePostRecord decodeRecord storage r
       = (storage, http.Error "Bad request" http.StatusBadRequest)).
Proof.
  intros id storage'. subst id storage'. unfold handlePostRecord.
  destruct (decodeRecord (Body r)) as [record|]; simpl.
  - split; [reflexivity|]. split; [reflexivity|]. split; [|split].
    + intros L HL. rewrite lookup_insert_ne by congruence. reflexivity.
    + intros records Hget. rewrite Hget. simpl.
      exists (records ++ [record]). split; [apply lookup_insert_eq|].
      apply prefix_app_r. reflexivity.
    + discriminate.
  - split; [reflexivity|]. split; [reflexivity|]. split; [|split].
    + reflexivity.
    + intros records Hget. exists records. split; [exact Hget | reflexivity].
    + reflexivity.
Qed.



(** X6. The same two requests on a list id that had no entry do not give
    the storage back: the id is now bound to the empty sequence, so reading
    it answers 200 where it answered 404 before. *)
Theorem handlePostRecord_then_delete_leaves_entry
    (decodeRecord : string → option VRecord) (storage : MemoryStorage)
    (r r' : Request) (record : VRecord) :
  decodeRecord (Body r) = Some record →
  Records storage !! contextID (Ctx r) = None →
  contextID (Ctx r') = contextID (Ctx r) →
  strconv.ParseInt (Query_Get (Query r') "recordId") = Some (ID record) →
  let storage' :=
    (handleDeleteRecord (handlePostRecord decodeRecord storage r).1 r').1 in
  storage' = set_Records storage (contextID (Ctx r)) []
  ∧ StatusCode (handleGetRecord storage r').2 = http.StatusNotFound
  ∧ (handleGetRecord storage' r').2 = Encode (RecordsJSON []).
Proof.
  intros Hdec Hlist Hctx Hparse storage'. subst storage'.
  unfold handlePostRecord. rewrite Hdec, Hlist. simpl.
  rewrite (handleDeleteRecord_first _ r' (ID record) [] [] record);
    [ | exact Hparse | rewrite Hctx; apply lookup_insert_eq
      | intros x Hx; inversion Hx | reflexivity ].
  rewrite Hctx, set_Records_twice. simpl.
  split; [reflexivity|]. unfold handleGetRecord. rewrite Hctx, Hlist. simpl.
  split; [reflexivity|]. rewrite lookup_insert_eq. reflexivity.
Qed.

Lemma handlePostRecord_then_delete_leaves_entry_witness :
  let record := mkRecord 101 "XYZ789" "Truck" in
  let decode := λ _ : string, Some record in
  let r := {| Method := http.MethodPost; Query := [("id", "1")];
              Cookies := []; Header := ∅; Body := "{}";
              Ctx := contextWithID Background 1 |} in
  let r' := {| Method := http.MethodDelete;
               Query := [("id", "1"); ("recordId", "101")]; Cookies := [];
               Header := ∅; Body := ""; Ctx := contextWithID Background 1 |} in
  let st' :=
    (handleDeleteRecord (handlePostRecord decode initial_storage r).1 r').1 in
  st' = set_Records initial_storage (contextID (Ctx r)) []
  ∧ StatusCode (handleGetRecord initial_storage r').2 = http.StatusNotFound
  ∧ (handleGetRecord st' r').2 = Encode (RecordsJSON []).
Proof.
  intros record decode r r'.
  apply (handlePostRecord_then_delete_leaves_entry decode initial_storage
           r r' record); vm_compute; reflexivity.
Defined.

(** X7. When the list already holds a record of the same id, deleting that
    id after the creation removes the older record, the first in the
    sequence, and the new record stays at the end. *)
Theorem handlePostRecord_then_delete_older_duplicate
    (decodeRecord : string → option VRecord) (storage : MemoryStorage)
    (r r' : Request) (record old : VRecord) (pre post : list VRecord) :
  decodeRecord (Body r) = Some record →
  Records storage !! contextID (Ctx r) = Some (pre ++ old :: post) →
  (∀ x, x ∈ pre → ID x ≠ ID record) →
  ID old = ID record →
  contextID (Ctx r') = contextID (Ctx r) →
  strconv.ParseInt (Query_Get (Query r') "recordId") = Some (ID record) →
  handleDeleteRecord (handlePostRecord decodeRecord storage r).1 r'
  = (set_Records storage (contextID (Ctx r)) (pre ++ post ++ [record]),
     WriteHeader http.StatusOK).
Proof.
  intros Hdec Hlist Hpre Hold Hctx Hparse.
  unfold handlePostRecord. rewrite Hdec, Hlist. simpl.
  rewrite (handleDeleteRecord_first _ r' (ID record) pre (post ++ [record]) old);
    [ | exact Hparse | | exact Hpre | exact Hold ].
  - rewrite Hctx, set_Records_twice. reflexivity.
  - rewrite Hctx. simpl. rewrite lookup_insert_eq, <- app_assoc.
    reflexivity.
Qed.

Lemma handlePostRecord_then_delete_older_duplicate_witness :
  let record := mkRecord 100 "NEW" "Truck" in
  let old := mkRecord 100 "OLD" "Car" in
  let other := mkRecord 7 "X" "Car" in
  let decode := λ _ : string, Some record in
  let st := set_Records initial_storage 1 [other; old] in
  let r := {| Method := http.MethodPost; Query := [("id", "1")];
              Cookies := []; Header := ∅; Body := "{}";
              Ctx := contextWithID Background 1 |} in
  let r' := {| Method := http.MethodDelete;
               Query := [("id", "1"); ("recordId", "100")]; Cookies := [];
               Header := ∅; Body := ""; Ctx := contextWithID Background 1 |} in
  handleDeleteRecord (handlePostRecord decode st r).1 r'
  = (set_Records st (contextID (Ctx r)) ([other] ++ [] ++ [record]),
     WriteHeader http.StatusOK).
Proof.
  intros record old other decode st r r'.
  apply (handlePostRecord_then_delete_older_duplicate decode st r r'
           record old [other] []).
  - reflexivity.
  - vm_compute. reflexivity.
  - intros x Hx. apply list_elem_of_In in Hx. simpl in Hx.
    destruct Hx as [<-|[]]. vm_compute. discriminate.
  - reflexivity.
  - reflexivity.
  - vm_compute. reflexivity.
Defined.

(** X8. Deleting is not repeatable: once the only record of an id is gone,
    the same request again answers 404 and changes nothing. *)
Theorem handleDeleteRecord_twice (storage : MemoryStorage) (r : Request)
    (recordID : Z) (pre post : list VRecord) (rec : VRecord) :
  strconv.ParseInt (Query_Get (Query r) "recordId") = Some recordID →
  Records storage !! contextID (Ctx r) = Some (pre ++ rec :: post) →
  ID rec = recordID →
  (∀ x, x ∈ pre ++ post → ID x ≠ recordID) →
  let storage' := (handleDeleteRecord storage r).1 in
  (handleDeleteRecord storage r).2 = WriteHeader http.StatusOK
  ∧ handleDeleteRecord storage' r
    = (storage', http.Error "Record not found" http.StatusNotFound).
Proof.
  intros Hparse Hlist Hid Hothers storage'. subst storage'.
  rewrite (handleDeleteRecord_first _ _ _ _ _ _ Hparse Hlist);
    [ | intros x Hx; apply Hothers, elem_of_app; left; exact Hx | exact Hid ].
  simpl. split; [reflexivity|].
  rewrite (handleDeleteRecord_parsed _ r recordID (pre ++ post) Hparse)
    by apply lookup_insert_eq.
  assert (Hfind : range_find recordID (pre ++ post) 0 = None).
  { apply range_find_None, Forall_forall. exact Hothers. }
  rewrite Hfind. reflexivity.
Qed.

Lemma handleDeleteRecord_twice_witness :
  let a := mkRecord 1 "A" "Car" in
  let b := mkRecord 2 "B" "Car" in
  let st := set_Records initial_storage 9 [a; b] in
  let r := {| Method := http.MethodDelete; Query := [("recordId", "2")];
              Cookies := []; Header := ∅; Body := "";
              Ctx := contextWithID Background 9 |} in
  let st' := (handleDeleteRecord st r).1 in
  (handleDeleteRecord st r).2 = WriteHeader http.StatusOK
  ∧ handleDeleteRecord st' r
    = (st', http.Error "Record not found" http.StatusNotFound).
Proof.
  intros a b st r.
  apply (handleDeleteRecord_twice st r 2 [a] [] b).
  - vm_compute. reflexivity.
  - vm_compute. reflexivity.
  - reflexivity.
  - intros x Hx. apply list_elem_of_In in Hx. simpl in Hx.
    destruct Hx as [<-|[]]. vm_compute. discriminate.
Defined.

(** ** Login *)

(** X9. [generateToken] is one-to-one: two tokens are equal only when both
    the owner id and the clock reading are. *)
Theorem generateToken_inj (id1 now1 id2 now2 : Z) :
  generateToken id1 now1 = generateToken id2 now2 ↔ id1 = id2 ∧ now1 = now2.
Proof.
  split; [|intros [-> ->]; reflexivity].
  intros Heq. pose proof (generateToken_inj_id _ _ _ _ Heq) as ->.
  split; [reflexivity|]. unfold generateToken in Heq.
  apply (inj (String.append (pretty id2))) in Heq.
  apply (inj (String.append "-")) in Heq.
  apply (inj pretty). exact Heq.
Qed.

(** X10. [loginHandler] answers 200 exactly for a POST whose body decodes;
    it sets a cookie exactly when it answers 200; and when it does not
    answer 200 the storage is as it was. *)
Theorem loginHandler_status (tokenExpiry : Z)
    (decodeCreds : string → option (string * string * bool))
    (now_id now_token now_expiry : Z) (storage : MemoryStorage)
    (r : Request) :
  let res := loginHandler tokenExpiry decodeCreds now_id now_token now_expiry
               storage r in
  (StatusCode res.2 = http.StatusOK
   ↔ Method r = http.MethodPost ∧ is_Some (decodeCreds (Body r)))
  ∧ (SetCookies res.2 ≠ [] ↔ StatusCode res.2 = http.StatusOK)
  ∧ (StatusCode res.2 ≠ http.StatusOK →
       res.1 = storage
       ∧ (StatusCode res.2 = http.StatusMethodNotAllowed
          ↔ Method r ≠ http.MethodPost)
       ∧ (StatusCode res.2 = http.StatusBadRequest
          ↔ Method r = http.MethodPost)).
Proof.
  intros res. subst res. unfold loginHandler.
  destruct (decide (Method r ≠ http.MethodPost)) as [Hne|Heq].
  - simpl. split; [|split].
    + split; [discriminate | intros [Hm _]; contradiction].
    + split; [contradiction | discriminate].
    + intros _. split; [reflexivity|]. split.
      * split; [intros _; exact Hne | reflexivity].
      * split; [discriminate | intros Hm; contradiction].
  - apply dec_stable in Heq.
    destruct (decodeCreds (Body r)) as [creds|]; simpl.
    + split; [|split].
      * split; [intros _; split; [exact Heq | eexists; reflexivity] | reflexivity].
      * split; [reflexivity | discriminate].
      * intros Hne. exfalso. apply Hne. reflexivity.
    + split; [|split].
      * split; [discriminate | intros [_ [x Hx]]; discriminate].
      * split; [contradiction | discriminate].
      * intros _. split; [reflexivity|]. split.
        -- split; [discriminate | intros Hm; contradiction].
        -- split; [intros _; exact Heq | reflexivity].
Qed.

(** X11. A successful login does not look at the credentials: any two
    decoders that accept the body give the same storage and the same
    response. The cookie is named [s], its value is bound in [Tokens] to the
    owner id and to the very expiry the cookie carries; every other token,
    [Lists] and [Records] are as before. *)
Theorem loginHandler_success (tokenExpiry : Z)
    (decodeCreds decodeCreds' : string → option (string * string * bool))
    (now_id now_token now_expiry : Z) (storage : MemoryStorage)
    (r : Request) :
  Method r = http.MethodPost →
  is_Some (decodeCreds (Body r)) →
  is_Some (decodeCreds' (Body r)) →
  let res := loginHandler tokenExpiry decodeCreds now_id now_token now_expiry
               storage r in
  res = loginHandler tokenExpiry decodeCreds' now_id now_token now_expiry
          storage r
  ∧ ∃ k, SetCookies res.2 = [k]
         ∧ cookie_Name k = "s"
         ∧ cookie_Value k = generateToken now_id now_token
         ∧ Tokens res.1 !! cookie_Value k
           = Some {| Expiry := cookie_Expires k; token_ID := now_id |}
         ∧ cookie_Expires k = now_expiry + tokenExpiry
         ∧ (∀ t, t ≠ cookie_Value k → Tokens res.1 !! t = Tokens storage !! t)
         ∧ Lists res.1 = Lists storage
         ∧ Records res.1 = Records storage.
Proof.
  intros Hm [creds Hd] [creds' Hd'] res. subst res. unfold loginHandler.
  destruct (decide (Method r ≠ http.MethodPost)) as [Hne|_]; [contradiction|].
  rewrite Hd, Hd'. split; [reflexivity|]. simpl.
  eexists. split; [reflexivity|]. simpl.
  split; [reflexivity|]. split; [reflexivity|].
  split; [apply lookup_insert_eq|]. split; [reflexivity|].
  split; [|split; reflexivity].
  intros t Ht. rewrite lookup_insert_ne by congruence. reflexivity.
Qed.

Lemma loginHandler_success_witness :
  let decode := λ _ : string, Some ("test"%string, "password"%string, false) in
  let decode' := λ _ : string, Some ("root"%string, ""%string, true) in
  let r := {| Method := http.MethodPost; Query := []; Cookies := [];
              Header := ∅; Body := "{}"; Ctx := Background |} in
  loginHandler 300 decode 10 11 12 initial_storage r
  = loginHandler 300 decode' 10 11 12 initial_storage r.
Proof.
  intros decode decode' r.
  apply (loginHandler_success 300 decode decode' 10 11 12 initial_storage r).
  - reflexivity.
  - eexists. reflexivity.
  - eexists. reflexivity.
Defined.

Lemma loginHandler_stores_token (tokenExpiry : Z)
    (decodeCreds : string → option (string * string * bool))
    (now_id now_token now_expiry : Z) (storage : MemoryStorage)
    (r : Request) :
  Method r = http.MethodPost →
  is_Some (decodeCreds (Body r)) →
  Tokens (loginHandler tokenExpiry decodeCreds now_id now_token now_expiry
            storage r).1 !! generateToken now_id now_token
  = Some {| Expiry := now_expiry + tokenExpiry; token_ID := now_id |}.
Proof.
  intros Hm [creds Hd]. unfold loginHandler.
  destruct (decide (Method r ≠ http.MethodPost)) as [Hne|_]; [contradiction|].
  rewrite Hd. simpl. apply lookup_insert_eq.
Qed.

Lemma tokenMiddleware_known_token (now : Z) (next : Handler)
    (storage : MemoryStorage) (q : Request) (c : string) (d : TokenData) :
  has_session q c → Tokens storage !! c = Some d →
  tokenMiddleware now next storage q
  = if decide (Expiry d < now)
    then (storage, http.Error "Unauthorized" http.StatusUnauthorized)
    else next storage
           (Header_Set q "User-ID" (strconv.FormatInt (token_ID d))).
Proof.
  unfold has_session, tokenMiddleware. intros -> ->. reflexivity.
Qed.

(** X12. After a successful login, a request that presents the cookie is
    let through, as the owner of that login, at every clock reading up to
    the login's expiry reading plus [tokenExpiry], and turned away with 401
    at every later one. *)
Theorem loginHandler_then_tokenMiddleware (tokenExpiry : Z)
    (decodeCreds : string → option (string * string * bool))
    (now_id now_token now_expiry now : Z) (storage : MemoryStorage)
    (r q : Request) :
  Method r = http.MethodPost →
  is_Some (decodeCreds (Body r)) →
  has_session q (generateToken now_id now_token) →
  let storage' := (loginHandler tokenExpiry decodeCreds now_id now_token
                     now_expiry storage r).1 in
  (now ≤ now_expiry + tokenExpiry →
     ∀ next, tokenMiddleware now next storage' q
             = next storage'
                 (Header_Set q "User-ID" (strconv.FormatInt now_id)))
  ∧ (now_expiry + tokenExpiry < now →
     ∀ next, tokenMiddleware now next storage' q
             = (storage', http.Error "Unauthorized" http.StatusUnauthorized)).
Proof.
  intros Hm Hd Hq storage'. subst storage'.
  pose proof (loginHandler_stores_token tokenExpiry decodeCreds now_id
                now_token now_expiry storage r Hm Hd) as Ht.
  split; intros Hnow next;
    rewrite (tokenMiddleware_known_token now next _ q _ _ Hq Ht); simpl;
    destruct (decide (now_expiry + tokenExpiry < now));
    first [reflexivity | lia].
Qed.

Lemma loginHandler_then_tokenMiddleware_witness :
  let decode := λ _ : string, Some ("test"%string, "password"%string, false) in
  let r := {| Method := http.MethodPost; Query := []; Cookies := [];
              Header := ∅; Body := "{}"; Ctx := Background |} in
  let q := request_with_session "10-11" in
  let st' := (loginHandler 300 decode 10 11 12 initial_storage r).1 in
  tokenMiddleware 312 echoUserID st' q
  = echoUserID st' (Header_Set q "User-ID" (strconv.FormatInt 10))
  ∧ tokenMiddleware 313 echoUserID st' q
    = (st', http.Error "Unauthorized" http.StatusUnauthorized).
Proof.
  intros decode r q.
  destruct (loginHandler_then_tokenMiddleware 300 decode 10 11 12 312
              initial_storage r q) as [Hin _];
    [reflexivity | eexists; reflexivity | vm_compute; reflexivity |].
  destruct (loginHandler_then_tokenMiddleware 300 decode 10 11 12 313
              initial_storage r q) as [_ Hout];
    [reflexivity | eexists; reflexivity | vm_compute; reflexivity |].
  split.
  - apply Hin. vm_compute. discriminate.
  - apply Hout. vm_compute. reflexivity.
Defined.

(** X13. A request the session middleware lets through reaches the next
    handler with [User-ID] set to the owner of its token, whatever
    [User-ID] the client sent; every other header and the rest of the
    request are untouched. *)
Theorem tokenMiddleware_sets_user_id (now : Z) (storage : MemoryStorage)
    (r : Request) (c : string) (d : TokenData) :
  has_session r c → Tokens storage !! c = Some d → now ≤ Expiry d →
  ∃ r',
    (∀ next, tokenMiddleware now next storage r = next storage r')
    ∧ Header r' !! "User-ID" = Some (strconv.FormatInt (token_ID d))
    ∧ (∀ k, k ≠ "User-ID"%string → Header r' !! k = Header r !! k)
    ∧ Method r' = Method r ∧ Query r' = Query r ∧ Cookies r' = Cookies r
    ∧ Body r' = Body r ∧ Ctx r' = Ctx r.
Proof.
  unfold has_session. intros Hc Ht Hnow.
  exists (Header_Set r "User-ID" (strconv.FormatInt (token_ID d))).
  split; [|split; [|split]].
  - intros next. unfold tokenMiddleware. rewrite Hc, Ht.
    destruct (decide (Expiry d < now)); [lia | reflexivity].
  - apply lookup_insert_eq.
  - intros k Hk. simpl. rewrite lookup_insert_ne by congruence. reflexivity.
  - repeat split.
Qed.

Lemma tokenMiddleware_sets_user_id_witness :
  let st := set_Tokens initial_storage "17-18" (mkTokenData 100 17) in
  let r := {| Method := http.MethodGet; Query := [];
              Cookies := [("s", "17-18")];
              Header := <["User-ID" := "1"]> ∅; Body := "";
              Ctx := Background |} in
  ∃ r',
    (∀ next, tokenMiddleware 50 next st r = next st r')
    ∧ Header r' !! "User-ID" = Some (strconv.FormatInt 17)
    ∧ (∀ k, k ≠ "User-ID"%string → Header r' !! k = Header r !! k)
    ∧ Method r' = Method r ∧ Query r' = Query r ∧ Cookies r' = Cookies r
    ∧ Body r' = Body r ∧ Ctx r' = Ctx r.
Proof.
  intros st r.
  apply (tokenMiddleware_sets_user_id 50 st r "17-18" (mkTokenData 100 17)).
  - vm_compute. reflexivity.
  - vm_compute. reflexivity.
  - vm_compute. discriminate.
Defined.

(** ** Configuration and start-up *)

Lemma readConfig_expiry_nonzero (ReadFile : string → option string)
    (Unmarshal : string → option Config) (path : string) (config : Config) :
  readConfig ReadFile Unmarshal path = Some config → TokenExpiry config ≠ 0.
Proof.
  unfold readConfig.
  destruct (ReadFile path) as [file|]; [|discriminate].
  destruct (Unmarshal file) as [parsed|]; [|discriminate].
  destruct (decide (TokenExpiry parsed = 0)) as [Hz|Hnz]; intros [= <-].
  - vm_compute. discriminate.
  - exact Hnz.
Qed.

(** X14. [readConfig] fails exactly when the file cannot be read or its
    contents cannot be unmarshalled; when it succeeds the base URL is the
    one of the file and the token expiry is never zero: a zero (or absent)
    value is replaced by five minutes, any other value is kept. *)
Theorem readConfig_result (ReadFile : string → option string)
    (Unmarshal : string → option Config) (path : string) :
  match readConfig ReadFile Unmarshal path with
  | Some config =>
      TokenExpiry config ≠ 0
      ∧ ∃ file parsed,
          ReadFile path = Some file ∧ Unmarshal file = Some parsed
          ∧ BaseURL config = BaseURL parsed
          ∧ (TokenExpiry parsed ≠ 0 → TokenExpiry config = TokenExpiry parsed)
          ∧ (TokenExpiry parsed = 0 → TokenExpiry config = 300000000000)
  | None =>
      ReadFile path = None
      ∨ ∃ file, ReadFile path = Some file ∧ Unmarshal file = None
  end.
Proof.
  unfold readConfig.
  destruct (ReadFile path) as [file|] eqn:Hread; [|left; reflexivity].
  destruct (Unmarshal file) as [parsed|] eqn:Hparse;
    [|right; exists file; auto].
  destruct (decide (TokenExpiry parsed = 0)) as [Hz|Hnz]; simpl.
  - split; [vm_compute; discriminate|].
    exists file, parsed. split; [reflexivity|]. split; [exact Hparse|].
    split; [reflexivity|]. split; [intros Hnz; contradiction|].
    intros _. reflexivity.
  - split; [exact Hnz|].
    exists file, parsed. split; [reflexivity|]. split; [exact Hparse|].
    split; [reflexivity|]. split; [intros _; reflexivity|].
    intros Hz. contradiction.
Qed.

(** X15. The token lifetime [main] ends up with is zero exactly when
    [KPAM_URL] is set: that branch assigns the base URL only and never
    reads the configuration. With these settings the cookie of a successful
    login is turned away at every clock reading after the one the login took
    for the expiry. *)
Theorem main_settings_env_url (envURL : string)
    (ReadFile : string → option string) (Unmarshal : string → option Config)
    (configFile : string) :
  let tokenExpiry := (main_settings envURL ReadFile Unmarshal configFile).2 in
  (tokenExpiry = 0 ↔ envURL ≠ "")
  ∧ (envURL ≠ "" →
     (main_settings envURL ReadFile Unmarshal configFile).1 = envURL
     ∧ ∀ decodeCreds now_id now_token now_expiry now storage r q next,
         Method r = http.MethodPost →
         is_Some (decodeCreds (Body r)) →
         has_session q (generateToken now_id now_token) →
         now_expiry < now →
         tokenMiddleware now next
           (loginHandler tokenExpiry decodeCreds now_id now_token now_expiry
              storage r).1 q
         = ((loginHandler tokenExpiry decodeCreds now_id now_token now_expiry
               storage r).1,
            http.Error "Unauthorized" http.StatusUnauthorized)).
Proof.
  intros tokenExpiry. subst tokenExpiry. unfold main_settings.
  destruct (decide (envURL ≠ "")) as [Henv|Henv]; simpl.
  - split; [split; [intros _; exact Henv | reflexivity]|].
    intros _. split; [reflexivity|].
    intros decodeCreds now_id now_token now_expiry now storage r q next
      Hm Hd Hq Hnow.
    pose proof (loginHandler_stores_token 0 decodeCreds now_id now_token
                  now_expiry storage r Hm Hd) as Ht.
    rewrite (tokenMiddleware_known_token now next _ q _ _ Hq Ht). simpl.
    destruct (decide (now_expiry + 0 < now)); [reflexivity | lia].
  - split; [|intros Hne; contradiction].
    destruct (readConfig ReadFile Unmarshal configFile) as [config|] eqn:Hcfg;
      simpl.
    + pose proof (readConfig_expiry_nonzero _ _ _ _ Hcfg) as Hnz.
      split; [contradiction | intros Hne; contradiction].
    + split; [vm_compute; discriminate | intros Hne; contradiction].
Qed.

Lemma main_settings_env_url_witness :
  let decode := λ _ : string, Some ("test"%string, "password"%string, false) in
  let ReadFile := λ _ : string, Some "token_expiry: 1h"%string in
  let Unmarshal := λ _ : string, Some (mkConfig "" (60 * Minute)) in
  let tokenExpiry :=
    (main_settings "http://0.0.0.0:80" ReadFile Unmarshal "kpam.yaml").2 in
  let r := {| Method := http.MethodPost; Query := []; Cookies := [];
              Header := ∅; Body := "{}"; Ctx := Background |} in
  let st' := (loginHandler tokenExpiry decode 10 11 12 initial_storage r).1 in
  tokenMiddleware 13 echoUserID st' (request_with_session "10-11")
  = (st', http.Error "Unauthorized" http.StatusUnauthorized).
Proof.
  intros decode ReadFile Unmarshal tokenExpiry r.
  destruct (main_settings_env_url "http://0.0.0.0:80" ReadFile Unmarshal
              "kpam.yaml") as [_ Henv].
  destruct Henv as [_ Hexp]; [discriminate|].
  apply (Hexp decode 10 11 12 13 initial_storage r
           (request_with_session "10-11") echoUserID).
  - reflexivity.
  - eexists. reflexivity.
  - vm_compute. reflexivity.
  - vm_compute. reflexivity.
Defined.

Lemma string_drop_app (p host : string) :
  string_drop (String.length p) (p +:+ host) = host.
Proof. induction p as [|c p IH]; simpl; [reflexivity | exact IH]. Qed.

(** X16. The listen address is the base URL without its first seven bytes,
    whatever those bytes are; it is undefined ([main] panics) exactly when
    the base URL is shorter than that, which is the case when the
    configuration file is read but gives no base URL: the default URL is
    not used then. *)
Theorem listen_addr_spec (baseURL : string) :
  (∀ scheme host, String.length scheme = 7%nat →
     listen_addr (scheme +:+ host) = Some host)
  ∧ (listen_addr baseURL = None ↔ (String.length baseURL < 7)%nat)
  ∧ (∀ ReadFile Unmarshal configFile config,
       readConfig ReadFile Unmarshal configFile = Some config →
       BaseURL config = "" →
       listen_addr (main_settings "" ReadFile Unmarshal configFile).1 = None)
  ∧ (∀ ReadFile Unmarshal configFile,
       readConfig ReadFile Unmarshal configFile = None →
       listen_addr (main_settings "" ReadFile Unmarshal configFile).1
       = Some "localhost:1608").
Proof.
  split; [|split; [|split]].
  - intros scheme host Hlen. unfold listen_addr.
    change (String.length "http://") with 7%nat.
    destruct (decide (7 ≤ String.length (scheme +:+ host))%nat) as [_|Hshort].
    + rewrite <- Hlen. rewrite string_drop_app. reflexivity.
    + exfalso. apply Hshort. clear Hshort. revert Hlen.
      generalize 7%nat. induction scheme as [|c scheme IH]; intros n; simpl.
      * intros <-. lia.
      * destruct n as [|n]; [discriminate|]. intros [= Hlen].
        specialize (IH n Hlen). lia.
  - unfold listen_addr. change (String.length "http://") with 7%nat.
    destruct (decide (7 ≤ String.length baseURL)%nat).
    + split; [discriminate | lia].
    + split; [lia | reflexivity].
  - intros ReadFile Unmarshal configFile config Hcfg Hurl.
    unfold main_settings. simpl. rewrite Hcfg. simpl. rewrite Hurl.
    reflexivity.
  - intros ReadFile Unmarshal configFile Hcfg.
    unfold main_settings. simpl. rewrite Hcfg. reflexivity.
Qed.

(** ** The routes, and sequences of requests *)

Lemma tokenMiddleware_cases (now : Z) (next : Handler)
    (storage : MemoryStorage) (r : Request) :
  tokenMiddleware now next storage r
  = (storage, http.Error "Unauthorized" http.StatusUnauthorized)
  ∨ ∃ r', Method r' = Method r ∧ Query r' = Query r ∧ Body r' = Body r
          ∧ Ctx r' = Ctx r
          ∧ tokenMiddleware now next storage r = next storage r'.
Proof.
  unfold tokenMiddleware.
  destruct (Cookie (Cookies r) "s") as [c|]; [|left; reflexivity].
  destruct (Tokens storage !! c) as [d|]; [|left; reflexivity].
  destruct (decide (Expiry d < now)); [left; reflexivity|].
  right. exists (Header_Set r "User-ID" (strconv.FormatInt (token_ID d))).
  repeat split.
Qed.

Lemma recordMiddleware_cases (next : Handler) (storage : MemoryStorage)
    (r : Request) :
  (∃ msg, recordMiddleware next storage r
          = (storage, http.Error msg http.StatusBadRequest))
  ∨ ∃ r', Method r' = Method r
          ∧ recordMiddleware next storage r = next storage r'.
Proof.
  unfold recordMiddleware.
  destruct (decide (Query_Get (Query r) "id" = "")); [left; eauto|].
  destruct (strconv.ParseInt (Query_Get (Query r) "id")); [|left; eauto].
  right. exists (WithContext r (contextWithID (Ctx r) z)).
  split; reflexivity.
Qed.

Lemma handleDeleteRecord_cases (storage : MemoryStorage) (r : Request) :
  (handleDeleteRecord storage r).1 = storage
  ∨ ∃ id records, (handleDeleteRecord storage r).1
                  = set_Records storage id records.
Proof.
  unfold handleDeleteRecord.
  destruct (decide (Query_Get (Query r) "recordId" = "")); [left; reflexivity|].
  destruct (strconv.ParseInt (Query_Get (Query r) "recordId"));
    [|left; reflexivity].
  destruct (Records storage !! contextID (Ctx r)) as [records|];
    [|left; reflexivity].
  destruct (range_find z records 0); [|left; reflexivity].
  right. eexists _, _. reflexivity.
Qed.

Lemma recordHandler_cases (decodeRecord : string → option VRecord)
    (storage : MemoryStorage) (r : Request) :
  (recordHandler decodeRecord storage r).1 = storage
  ∨ (Method r ≠ http.MethodGet
     ∧ ∃ id records, (recordHandler decodeRecord storage r).1
                     = set_Records storage id records).
Proof.
  unfold recordHandler.
  destruct (decide (Method r = http.MethodGet)) as [|Hget].
  { left. unfold handleGetRecord.
    destruct (Records storage !! contextID (Ctx r)); reflexivity. }
  destruct (decide (Method r = http.MethodPost)).
  { unfold handlePostRecord. destruct (decodeRecord (Body r)).
    - right. split; [exact Hget|]. eexists _, _. reflexivity.
    - left. reflexivity. }
  destruct (decide (Method r = http.MethodDelete)); [|left; reflexivity].
  destruct (handleDeleteRecord_cases storage r) as [Hsame|Hset].
  - left. exact Hsame.
  - right. split; [exact Hget | exact Hset].
Qed.

Lemma route_record_cases (decodeRecord : string → option VRecord) (now : Z)
    (storage : MemoryStorage) (r : Request) :
  (route_record decodeRecord now storage r).1 = storage
  ∨ (Method r ≠ http.MethodGet
     ∧ ∃ id records, (route_record decodeRecord now storage r).1
                     = set_Records storage id records).
Proof.
  unfold route_record.
  destruct (tokenMiddleware_cases now (recordMiddleware
              (recordHandler decodeRecord)) storage r)
    as [->|(r' & Hm & _ & _ & _ & ->)]; [left; reflexivity|].
  destruct (recordMiddleware_cases (recordHandler decodeRecord) storage r')
    as [(msg & ->)|(r'' & Hm' & ->)]; [left; reflexivity|].
  rewrite <- Hm, <- Hm'. apply recordHandler_cases.
Qed.

Lemma route_vehiclelists_storage (now : Z) (range : list (Z * VehicleList))
    (storage : MemoryStorage) (r : Request) :
  (route_vehiclelists now range storage r).1 = storage.
Proof.
  unfold route_vehiclelists.
  destruct (tokenMiddleware_cases now (vehicleListsHandler range) storage r)
    as [->|(r' & _ & _ & _ & _ & ->)]; [reflexivity|].
  unfold vehicleListsHandler.
  destruct (decide (Method r' = http.MethodGet)); reflexivity.
Qed.

Lemma loginHandler_cases (tokenExpiry : Z)
    (decodeCreds : string → option (string * string * bool))
    (now_id now_token now_expiry : Z) (storage : MemoryStorage)
    (r : Request) :
  (loginHandler tokenExpiry decodeCreds now_id now_token now_expiry
     storage r).1 = storage
  ∨ ∃ expiry,
      (loginHandler tokenExpiry decodeCreds now_id now_token now_expiry
         storage r).1
      = set_Tokens storage (generateToken now_id now_token)
          {| Expiry := expiry; token_ID := now_id |}.
Proof.
  unfold loginHandler.
  destruct (decide (Method r ≠ http.MethodPost)); [left; reflexivity|].
  destruct (decodeCreds (Body r)); [|left; reflexivity].
  right. eexists. reflexivity.
Qed.

(** One request changes the storage in one of two ways at most: the record
    route rebinds one list id, the login route binds one token. *)
Lemma serve_cases (tokenExpiry : Z)
    (decodeRecord : string → option VRecord)
    (decodeCreds : string → option (string * string * bool))
    (c : call) (storage : MemoryStorage) :
  let storage' := (serve tokenExpiry decodeRecord decodeCreds c storage).1 in
  storage' = storage
  ∨ (∃ id records, storage' = set_Records storage id records)
  ∨ (∃ id now expiry,
       storage' = set_Tokens storage (generateToken id now)
                    {| Expiry := expiry; token_ID := id |}).
Proof.
  destruct c as [now_id now_token now_expiry r | now range r | now r]; simpl.
  - destruct (loginHandler_cases tokenExpiry decodeCreds now_id now_token
                now_expiry storage r) as [->|[expiry ->]];
      [left; reflexivity | right; right; eauto].
  - left. apply route_vehiclelists_storage.
  - destruct (route_record_cases decodeRecord now storage r)
      as [->|(_ & id & records & ->)]; [left; reflexivity | right; left; eauto].
Qed.

Lemma run_Lists (tokenExpiry : Z)
    (decodeRecord : string → option VRecord)
    (decodeCreds : string → option (string * string * bool))
    (calls : list call) (storage : MemoryStorage) :
  Lists (run tokenExpiry decodeRecord decodeCreds calls storage)
  = Lists storage.
Proof.
  revert storage. induction calls as [|c calls IH]; intros storage; simpl.
  - reflexivity.
  - rewrite IH.
    destruct (serve_cases tokenExpiry decodeRecord decodeCreds c storage)
      as [Heq|[(id & records & Heq)|(id & now & expiry & Heq)]];
      rewrite Heq; reflexivity.
Qed.

(** X17. No sequence of requests, on any of the three routes, changes
    [Lists], removes a token from [Tokens], or removes a list id from
    [Records]. *)
Theorem run_keeps (tokenExpiry : Z)
    (decodeRecord : string → option VRecord)
    (decodeCreds : string → option (string * string * bool))
    (calls : list call) (storage : MemoryStorage) :
  let storage' := run tokenExpiry decodeRecord decodeCreds calls storage in
  Lists storage' = Lists storage
  ∧ dom (Tokens storage) ⊆ dom (Tokens storage')
  ∧ dom (Records storage) ⊆ dom (Records storage').
Proof.
  revert storage. induction calls as [|c calls IH]; intros storage; simpl.
  - repeat split; reflexivity.
  - specialize (IH (serve tokenExpiry decodeRecord decodeCreds c storage).1).
    simpl in IH. destruct IH as (HL & HT & HR).
    destruct (serve_cases tokenExpiry decodeRecord decodeCreds c storage)
      as [Heq|[(id & records & Heq)|(id & now & expiry & Heq)]];
      rewrite Heq in HL, HT, HR |- *; simpl in HL, HT, HR.
    + auto.
    + split; [exact HL|]. split; [exact HT|].
      etrans; [apply dom_insert_subseteq | exact HR].
    + split; [exact HL|]. split; [|exact HR].
      etrans; [apply dom_insert_subseteq | exact HT].
Qed.

Lemma run_tokens_shape (tokenExpiry : Z)
    (decodeRecord : string → option VRecord)
    (decodeCreds : string → option (string * string * bool))
    (calls : list call) (storage : MemoryStorage) :
  (∀ k d, Tokens storage !! k = Some d →
          ∃ now, k = generateToken (token_ID d) now) →
  ∀ k d,
    Tokens (run tokenExpiry decodeRecord decodeCreds calls storage) !! k
    = Some d →
    ∃ now, k = generateToken (token_ID d) now.
Proof.
  revert storage. induction calls as [|c calls IH]; intros storage Hinv; simpl.
  - exact Hinv.
  - apply IH.
    destruct (serve_cases tokenExpiry decodeRecord decodeCreds c storage)
      as [Heq|[(id & records & Heq)|(id & now & expiry & Heq)]];
      rewrite Heq; simpl; [exact Hinv | exact Hinv |].
    intros k d. rewrite lookup_insert.
    destruct (decide (generateToken id now = k)) as [<-|_].
    + intros [= <-]. exists now. reflexivity.
    + apply Hinv.
Qed.

(** X18. In every storage the server reaches from its initial one, each
    token names its owner: it is [generateToken] of the owner id it is bound
    to, so the owner id is the numeral the token begins with. *)
Theorem run_tokens_name_owner (tokenExpiry : Z)
    (decodeRecord : string → option VRecord)
    (decodeCreds : string → option (string * string * bool))
    (calls : list call) (k : string) (d : TokenData) :
  Tokens (run tokenExpiry decodeRecord decodeCreds calls initial_storage) !! k
  = Some d →
  (∃ now, k = generateToken (token_ID d) now)
  ∧ token_head k = strconv.FormatInt (token_ID d).
Proof.
  intros Hk.
  destruct (run_tokens_shape tokenExpiry decodeRecord decodeCreds calls
              initial_storage) with (k := k) (d := d) as [now ->];
    [ | exact Hk | ].
  - intros k' d' Hk'. simpl in Hk'. rewrite lookup_empty in Hk'. discriminate.
  - split; [eauto | apply token_head_generateToken].
Qed.

Lemma run_tokens_name_owner_witness :
  let decode := λ _ : string, Some ("test"%string, "password"%string, false) in
  let post := {| Method := http.MethodPost; Query := []; Cookies := [];
                 Header := ∅; Body := "{}"; Ctx := Background |} in
  (∃ now, "10-11"%string = generateToken 10 now)
  ∧ token_head "10-11" = strconv.FormatInt 10.
Proof.
  intros decode post.
  apply (run_tokens_name_owner 300 (λ _, None) decode
           [CallLogin 10 11 12 post] "10-11" (mkTokenData 312 10)).
  vm_compute. reflexivity.
Defined.

(** X19. Since no route writes [Lists], the list route of a server started
    on the initial storage answers every authorised GET, after any
    requests whatever, with no entries and a total count of 0. *)
Theorem run_initial_lists_empty (tokenExpiry : Z)
    (decodeRecord : string → option VRecord)
    (decodeCreds : string → option (string * string * bool))
    (calls : list call) (now : Z) (range : list (Z * VehicleList))
    (r : Request) (c : string) (d : TokenData) :
  let storage := run tokenExpiry decodeRecord decodeCreds calls
                   initial_storage in
  Method r = http.MethodGet →
  has_session r c → Tokens storage !! c = Some d → now ≤ Expiry d →
  range ≡ₚ map_to_list (Lists storage) →
  route_vehiclelists now range storage r
  = (storage, Encode (ListsJSON [] 0 20 0)).
Proof.
  intros storage Hm Hc Ht Hnow Hrange.
  assert (HL : Lists storage = ∅)
    by apply (run_Lists tokenExpiry decodeRecord decodeCreds calls
                initial_storage).
  rewrite HL, map_to_list_empty in Hrange.
  apply Permutation_nil_r in Hrange. subst range.
  unfold route_vehiclelists.
  rewrite (tokenMiddleware_known_token now _ storage r c d Hc Ht).
  destruct (decide (Expiry d < now)); [lia|].
  unfold vehicleListsHandler. simpl.
  destruct (decide (Method r = http.MethodGet)); [reflexivity | contradiction].
Qed.

Lemma run_initial_lists_empty_witness :
  let decodeCreds :=
    λ _ : string, Some ("test"%string, "password"%string, false) in
  let decodeRecord := λ _ : string, Some (mkRecord 101 "XYZ789" "Truck") in
  let post := {| Method := http.MethodPost; Query := [("id", "1")];
                 Cookies := [("s", "10-11")]; Header := ∅; Body := "{}";
                 Ctx := Background |} in
  let get := request_with_session "10-11" in
  let st := run 300 decodeRecord decodeCreds
              [CallLogin 10 11 12 post; CallRecord 15 post] initial_storage in
  route_vehiclelists 20 [] st get = (st, Encode (ListsJSON [] 0 20 0)).
Proof.
  intros decodeCreds decodeRecord post get st.
  apply (run_initial_lists_empty 300 decodeRecord decodeCreds
           [CallLogin 10 11 12 post; CallRecord 15 post] 20 [] get
           "10-11" (mkTokenData 312 10)).
  - reflexivity.
  - vm_compute. reflexivity.
  - vm_compute. reflexivity.
  - vm_compute. discriminate.
  - vm_compute. reflexivity.
Defined.

Lemma route_record_authorised (decodeRecord : string → option VRecord)
    (now : Z) (storage : MemoryStorage) (r : Request) (c : string)
    (d : TokenData) :
  has_session r c → Tokens storage !! c = Some d → now ≤ Expiry d →
  route_record decodeRecord now storage r
  = recordMiddleware (recordHandler decodeRecord) storage
      (Header_Set r "User-ID" (strconv.FormatInt (token_ID d))).
Proof.
  intros Hc Ht Hnow. unfold route_record.
  rewrite (tokenMiddleware_known_token now _ storage r c d Hc Ht).
  destruct (decide (Expiry d < now)); [lia | reflexivity].
Qed.

(** X20. The record route checks in a fixed order: behind a valid session,
    a missing or unparseable [id] gives 400 whatever the method is, and
    only with an [id] that parses does a method other than GET, POST and
    DELETE give 405; the storage is unchanged in both cases. *)
Theorem route_record_error_order (decodeRecord : string → option VRecord)
    (now : Z) (storage : MemoryStorage) (r : Request) (c : string)
    (d : TokenData) :
  has_session r c → Tokens storage !! c = Some d → now ≤ Expiry d →
  (Query_Get (Query r) "id" = ""
   ∨ strconv.ParseInt (Query_Get (Query r) "id") = None →
     (route_record decodeRecord now storage r).1 = storage
     ∧ StatusCode (route_record decodeRecord now storage r).2
       = http.StatusBadRequest)
  ∧ (is_Some (strconv.ParseInt (Query_Get (Query r) "id")) →
     Method r ≠ http.MethodGet → Method r ≠ http.MethodPost →
     Method r ≠ http.MethodDelete →
     route_record decodeRecord now storage r
     = (storage,
        http.Error "Method not allowed" http.StatusMethodNotAllowed)).
Proof.
  intros Hc Ht Hnow.
  rewrite (route_record_authorised decodeRecord now storage r c d Hc Ht Hnow).
  unfold recordMiddleware. simpl. split.
  - intros Hbad.
    destruct (decide (Query_Get (Query r) "id" = "")) as [|Hne];
      [split; reflexivity|].
    destruct Hbad as [Hempty|Hparse]; [contradiction|].
    rewrite Hparse. split; reflexivity.
  - intros [id Hparse] Hget Hpost Hdelete.
    destruct (decide (Query_Get (Query r) "id" = "")) as [Hempty|_].
    { rewrite Hempty in Hparse. discriminate. }
    rewrite Hparse. unfold recordHandler. simpl.
    destruct (decide (Method r = http.MethodGet)); [contradiction|].
    destruct (decide (Method r = http.MethodPost)); [contradiction|].
    destruct (decide (Method r = http.MethodDelete)); [contradiction|].
    reflexivity.
Qed.

Lemma route_record_error_order_witness :
  let st := set_Tokens initial_storage "17-18" (mkTokenData 100 17) in
  let r := {| Method := "PUT"; Query := [("id", "x")];
              Cookies := [("s", "17-18")]; Header := ∅; Body := "";
              Ctx := Background |} in
  (route_record (λ _, None) 50 st r).1 = st
  ∧ StatusCode (route_record (λ _, None) 50 st r).2 = http.StatusBadRequest.
Proof.
  intros st r.
  destruct (route_record_error_order (λ _, None) 50 st r "17-18"
              (mkTokenData 100 17)) as [Hbad _].
  - vm_compute. reflexivity.
  - vm_compute. reflexivity.
  - vm_compute. discriminate.
  - apply Hbad. right. vm_compute. reflexivity.
Defined.

(** X21. The list route never changes the storage, whatever the request;
    the record route never changes it on a GET, and on no request does it
    change [Tokens] or [Lists]. *)
Theorem protected_routes_read_only (decodeRecord : string → option VRecord)
    (now : Z) (range : list (Z * VehicleList)) (storage : MemoryStorage)
    (r : Request) :
  (route_vehiclelists now range storage r).1 = storage
  ∧ (Method r = http.MethodGet →
     (route_record decodeRecord now storage r).1 = storage)
  ∧ Tokens (route_record decodeRecord now storage r).1 = Tokens storage
  ∧ Lists (route_record decodeRecord now storage r).1 = Lists storage.
Proof.
  split; [apply route_vehiclelists_storage|].
  destruct (route_record_cases decodeRecord now storage r)
    as [->|(Hget & id & records & ->)].
  - repeat split.
  - split; [intros Hm; contradiction|]. split; reflexivity.
Qed.

(** X22. Records are kept per list id, not per owner: a record created
    through the record route under one session is returned, last in the
    sequence, to a GET for the same list id under any other valid
    session. *)
Theorem route_record_post_then_get (decodeRecord : string → option VRecord)
    (now now' : Z) (storage : MemoryStorage) (r r' : Request)
    (c c' : string) (d d' : TokenData) (L : Z) (record : VRecord) :
  has_session r c → Tokens storage !! c = Some d → now ≤ Expiry d →
  has_session r' c' → Tokens storage !! c' = Some d' → now' ≤ Expiry d' →
  strconv.ParseInt (Query_Get (Query r) "id") = Some L →
  strconv.ParseInt (Query_Get (Query r') "id") = Some L →
  Method r = http.MethodPost → Method r' = http.MethodGet →
  decodeRecord (Body r) = Some record →
  let storage' := (route_record decodeRecord now storage r).1 in
  (route_record decodeRecord now storage r).2 = WriteHeader http.StatusCreated
  ∧ route_record decodeRecord now' storage' r'
    = (storage',
       Encode (RecordsJSON (default [] (Records storage !! L) ++ [record]))).
Proof.
  intros Hc Ht Hnow Hc' Ht' Hnow' Hid Hid' Hm Hm' Hdec storage'.
  subst storage'.
  rewrite (route_record_authorised decodeRecord now storage r c d Hc Ht Hnow).
  assert (Hpost :
    recordMiddleware (recordHandler decodeRecord) storage
      (Header_Set r "User-ID" (strconv.FormatInt (token_ID d)))
    = (set_Records storage L (default [] (Records storage !! L) ++ [record]),
       WriteHeader http.StatusCreated)).
  { unfold recordMiddleware. simpl.
    destruct (decide (Query_Get (Query r) "id" = "")) as [Hempty|_].
    { rewrite Hempty in Hid. discriminate. }
    rewrite Hid. unfold recordHandler. simpl. rewrite Hm.
    destruct (decide (http.MethodPost = http.MethodGet)); [discriminate|].
    destruct (decide (http.MethodPost = http.MethodPost)); [|contradiction].
    unfold handlePostRecord. simpl. rewrite Hdec. reflexivity. }
  rewrite Hpost. simpl. split; [reflexivity|].
  rewrite (route_record_authorised decodeRecord now'
             (set_Records storage L
                (default [] (Records storage !! L) ++ [record]))
             r' c' d' Hc' Ht' Hnow').
  unfold recordMiddleware. simpl.
  destruct (decide (Query_Get (Query r') "id" = "")) as [Hempty|_].
  { rewrite Hempty in Hid'. discriminate. }
  rewrite Hid'. unfold recordHandler. simpl. rewrite Hm'.
  destruct (decide (http.MethodGet = http.MethodGet)); [|contradiction].
  unfold handleGetRecord. simpl. rewrite lookup_insert_eq. reflexivity.
Qed.

Lemma route_record_post_then_get_witness :
  let record := mkRecord 101 "XYZ789" "Truck" in
  let decode := λ _ : string, Some record in
  let st := set_Tokens (set_Tokens initial_storage "17-18"
                          (mkTokenData 100 17)) "20-21" (mkTokenData 100 20) in
  let r := {| Method := http.MethodPost; Query := [("id", "1")];
              Cookies := [("s", "17-18")]; Header := ∅; Body := "{}";
              Ctx := Background |} in
  let r' := {| Method := http.MethodGet; Query := [("id", "1")];
               Cookies := [("s", "20-21")]; Header := ∅; Body := "";
               Ctx := Background |} in
  let st' := (route_record decode 50 st r).1 in
  (route_record decode 50 st r).2 = WriteHeader http.StatusCreated
  ∧ route_record decode 60 st' r'
    = (st', Encode (RecordsJSON (default [] (Records st !! 1) ++ [record]))).
Proof.
  intros record decode st r r'.
  apply (route_record_post_then_get decode 50 60 st r r' "17-18" "20-21"
           (mkTokenData 100 17) (mkTokenData 100 20) 1 record);
    first [reflexivity | vm_compute; reflexivity | vm_compute; discriminate].
Defined.
